(** * CogniSync decision engine: scores, alerts, history window, tactic selection.

    Shallow embedding of [backend/main.py] ([compute_scores], [detect_alerts],
    the memory handling of [analyze]) and of [backend/reasoning.py]
    ([_get_tactic], [_zone], [TACTICS], [_psychology_fallback]).

    Python [float] is IEEE binary64, embedded as Rocq's primitive [float];
    Python [str] is embedded as [string], the UTF-8 bytes of the text;
    Python [dict] is a [gmap]; unbounded Python [int] is [Z]. *)

From Stdlib Require Import Floats ZArith Ascii String.
From stdpp Require Import gmap strings list.

Open Scope Z_scope.
Open Scope string_scope.
Open Scope list_scope.

(** ** Python built-ins used by the two modules *)

Module Py.

(** [min(a, b)]: the first argument is kept unless the second is strictly
    smaller. *)
Definition min (a b : float) : float := if PrimFloat.ltb b a then b else a.

(** [max(a, b)]: the first argument is kept unless the second is strictly
    larger. *)
Definition max (a b : float) : float := if PrimFloat.ltb a b then b else a.

(** [sum(xs)] over floats, accumulated left to right from zero. *)
Definition sum (xs : list float) : float := foldl PrimFloat.add 0%float xs.

(** [float(n)] for a list length [n]. *)
Definition of_len (n : nat) : float :=
  PrimFloat.of_uint63 (Uint63.of_Z (Z.of_nat n)).

(** [d.get(k, default)]. *)
Definition get {V} (d : gmap string V) (k : string) (dflt : V) : V :=
  default dflt (d !! k).

(** [l[-n:]]: the last [n] elements, or all of [l] when it is shorter. *)
Definition last_n {A} (n : nat) (l : list A) : list A :=
  drop (length l - n) l.

(** [l[-n]]: defined when [n <= len(l)] (for [n >= 1]). *)
Definition index_from_end {A} (n : nat) (l : list A) : option A :=
  if decide (n ≤ length l)%nat then l !! (length l - n)%nat else None.


(** [needle in hay] on strings. *)
Fixpoint contains (needle hay : string) : bool :=
  String.prefix needle hay ||
  match hay with
  | EmptyString => false
  | String _ rest => contains needle rest
  end.

(** [s.lower()], on the ASCII letters; the other bytes are kept. *)
Definition lower_char (c : ascii) : ascii :=
  let n := N_of_ascii c in
  if ((65 <=? n) && (n <=? 90))%N then ascii_of_N (n + 32) else c.

Fixpoint lower (s : string) : string :=
  match s with
  | EmptyString => EmptyString
  | String c rest => String (lower_char c) (lower rest)
  end.

(** Truth value of a [str]. *)
Definition str_truthy (s : string) : bool := negb (String.eqb s "").

End Py.

(** ** Outcomes of a Python call: a value or a raised exception *)

Inductive exn := KeyError | IndexError | ZeroDivisionError.

Inductive outcome (A : Type) :=
| Return (a : A)
| Raise (e : exn).
Arguments Return {A} a.
Arguments Raise {A} e.

(** ** main.py *)

(** A scored snapshot, the dict built by [analyze] (lines 162-171). A field
    is [None] when the key is absent from the dict. *)
Record Snapshot := {
  emotion : option string;
  posture : option string;
  attention : option string;
  movement : option string;
  engagement_score : option float;
  stress_score : option float;
  confidence_score : option float;
  audio : option (gmap string string)
}.

(** [d[k]]: raises [KeyError] when the key is absent. *)
Definition subscript {A} (field : option A) : outcome A :=
  match field with
  | Some v => Return v
  | None => Raise KeyError
  end.

Definition attention_map : gmap string float :=
  list_to_map [("high", 30); ("medium", 10); ("low", -20)]%float.
Definition emotion_eng_map : gmap string float :=
  list_to_map [("happy", 15); ("surprised", 10); ("neutral", 0);
               ("sad", -10); ("angry", -5); ("disgusted", -15); ("fearful", -10)]%float.
Definition posture_map : gmap string float :=
  list_to_map [("upright", 10); ("leaning_forward", 15); ("neutral", 0); ("slouched", -15)]%float.
Definition speech_map : gmap string float :=
  list_to_map [("fast", -5); ("normal", 5); ("slow", 0); ("silent", -10)]%float.
Definition emotion_stress_map : gmap string float :=
  list_to_map [("fearful", 40); ("angry", 35); ("disgusted", 25);
               ("sad", 20); ("surprised", 15); ("neutral", 5); ("happy", -10)]%float.
Definition tone_stress_map : gmap string float :=
  list_to_map [("stressed", 25); ("calm", -10); ("neutral", 0); ("excited", 10)]%float.
Definition pause_stress_map : gmap string float :=
  list_to_map [("frequent", 15); ("minimal", 0); ("none", 5)]%float.
Definition movement_stress_map : gmap string float :=
  list_to_map [("restless", 20); ("moderate", 5); ("still", -5)]%float.
Definition conf_posture_map : gmap string float :=
  list_to_map [("upright", 20); ("leaning_forward", 15); ("neutral", 0); ("slouched", -20)]%float.
Definition conf_emotion_map : gmap string float :=
  list_to_map [("happy", 15); ("neutral", 5); ("surprised", -5);
               ("angry", -10); ("fearful", -25); ("sad", -15); ("disgusted", -10)]%float.
Definition conf_speech_map : gmap string float :=
  list_to_map [("fast", -5); ("normal", 10); ("slow", -5); ("silent", -15)]%float.

(** [audio_signals.get(k, d) if audio_signals else d]: an absent or empty
    dict is falsy. *)
Definition audio_get (audio_signals : option (gmap string string))
    (k dflt : string) : string :=
  match audio_signals with
  | Some d => if decide (d = ∅) then dflt else Py.get d k dflt
  | None => dflt
  end.

Definition compute_scores (vision_signals : gmap string string)
    (audio_signals : option (gmap string string)) : float * float * float :=
  let emotion := Py.get vision_signals "emotion" "neutral" in
  let attention := Py.get vision_signals "attention" "medium" in
  let posture := Py.get vision_signals "posture" "neutral" in
  let movement := Py.get vision_signals "movement" "moderate" in
  let speech_speed := audio_get audio_signals "speech_speed" "normal" in
  let pauses := audio_get audio_signals "pauses" "minimal" in
  let tone := audio_get audio_signals "tone_indicator" "neutral" in
  (* engagement *)
  let engagement := 50%float in
  let engagement := (engagement + Py.get attention_map attention 0)%float in
  let engagement := (engagement + Py.get emotion_eng_map emotion 0)%float in
  let engagement := (engagement + Py.get posture_map posture 0)%float in
  let engagement := (engagement + Py.get speech_map speech_speed 0)%float in
  let engagement := Py.max 0 (Py.min 100 engagement) in
  (* stress *)
  let stress := 20%float in
  let stress := (stress + Py.get emotion_stress_map emotion 0)%float in
  let stress := (stress + Py.get tone_stress_map tone 0)%float in
  let stress := (stress + Py.get pause_stress_map pauses 0)%float in
  let stress := (stress + Py.get movement_stress_map movement 0)%float in
  let stress := Py.max 0 (Py.min 100 stress) in
  (* confidence *)
  let confidence := 50%float in
  let confidence := (confidence + Py.get attention_map attention 0 * 0.5)%float in
  let confidence := (confidence + Py.get conf_posture_map posture 0)%float in
  let confidence := (confidence + Py.get conf_emotion_map emotion 0)%float in
  let confidence := (confidence + Py.get conf_speech_map speech_speed 0)%float in
  let confidence := Py.max 0 (Py.min 100 confidence) in
  (engagement, stress, confidence).

(** The five alert texts of [detect_alerts], in the order of their checks. *)
Definition engagement_dropping_text : string := "⚠️ Engagement dropping significantly".
Definition stress_spiking_text : string := "⚠️ Stress level spiking".
Definition very_low_engagement_text : string := "🔴 Very low engagement detected".
Definition high_stress_text : string := "🔴 High stress detected".
Definition attention_lost_text : string := "⚠️ Attention lost – subject is disengaged".

(** [alerts.append(text)] when the check fires. *)
Definition append_if (fires : bool) (text : string) (alerts : list string) : list string :=
  if fires then alerts ++ [text] else alerts.

Definition detect_alerts (current : Snapshot) (memory : list Snapshot)
    : outcome (list string) :=
  let alerts := [] in
  if decide (length memory < 2)%nat then Return alerts else
  let prev_states := Py.last_n 3 memory in
  match mapM engagement_score prev_states, engagement_score current,
        mapM stress_score prev_states, stress_score current,
        attention current with
  | Some prev_eng, Some cur_eng, Some prev_stress, Some cur_stress, Some cur_attention =>
      let prev_avg_eng := (Py.sum prev_eng / Py.of_len (length prev_states))%float in
      let alerts := append_if (cur_eng <? prev_avg_eng - 20)%float
                      engagement_dropping_text alerts in
      let prev_avg_stress := (Py.sum prev_stress / Py.of_len (length prev_states))%float in
      let alerts := append_if (prev_avg_stress + 20 <? cur_stress)%float
                      stress_spiking_text alerts in
      let alerts := append_if (cur_eng <? 30)%float very_low_engagement_text alerts in
      let alerts := append_if (75 <? cur_stress)%float high_stress_text alerts in
      let alerts := append_if (bool_decide (cur_attention = "low"))
                      attention_lost_text alerts in
      Return alerts
  | _, _, _, _, _ => Raise KeyError
  end.

(** Lines 177-179 of [analyze]: [state_memory.append(current_state)], then
    [state_memory.pop(0)] when the length exceeds 5. *)
Definition remember (current_state : Snapshot) (state_memory : list Snapshot)
    : list Snapshot :=
  let state_memory := state_memory ++ [current_state] in
  if decide (5 < length state_memory)%nat then drop 1 state_memory else state_memory.


(** ** reasoning.py *)

Definition ROTATION_EVERY : Z := 4.

(** Keys of [TACTICS] and of [_key_hit_counts]: a 4-tuple
    [(emotion, attention, stress zone, engagement zone)] or a [str] tag. *)
Inductive Key :=
| StateKey (emotion attention s_zone e_zone : string)
| TagKey (tag : string).

#[global] Instance Key_eq_dec : EqDecision Key.
Proof. solve_decision. Defined.

#[global] Instance Key_countable : Countable Key.
Proof.
  refine (inj_countable'
    (λ k, match k with
          | StateKey e a s z => inl (e, a, s, z)
          | TagKey t => inr t
          end)
    (λ x, match x with
          | inl (e, a, s, z) => StateKey e a s z
          | inr t => TagKey t
          end) _).
  by intros [].
Defined.

(** Truth value of a key: a 4-tuple is truthy, a [str] is truthy unless empty. *)
Definition key_truthy (k : Key) : bool :=
  match k with
  | StateKey _ _ _ _ => true
  | TagKey t => Py.str_truthy t
  end.

(** A value of [TACTICS]: a [str], or a list of texts. *)
Inductive Entry :=
| Fixed (text : string)
| Variants (texts : list string).

Definition TACTICS_items : list (Key * Entry) := [
  (StateKey "neutral" "low" "low" "low",
   Variants [
     "Gaze drifted + engagement collapsed — pattern interrupt: call their name, hold 3 seconds of silence, then ask ONE question: 'What's actually on your mind right now?'";
     "Still disengaged after the interrupt. Abandon the current frame entirely. Ask: 'If we set aside everything discussed so far — what do YOU think the real issue is?'";
     "Prolonged disengagement with calm signals = boredom. Use the Ben Franklin effect: ask them to help you with something small. Requested effort re-activates investment."]);
  (StateKey "neutral" "low" "mid" "low",
   Variants [
     "Attention lost under stress — they're mentally elsewhere under pressure. Stop all content. Ask: 'What's the one thing that needs to be resolved for you to stay present here?'";
     "Still distracted under stress. Their working memory is saturated. Strip down to ONE sentence, then stay silent — give their brain space to surface what's blocking them.";
     "Sustained stress-distraction. Name it directly: 'It feels like something outside this conversation is competing for your attention.' Naming the distraction often dissolves it."]);
  (StateKey "neutral" "low" "low" "mid",
   Variants [
     "Mild attention drift. Deploy the Ben Franklin effect: ask a small favor or genuine opinion to re-activate investment. Effort creates engagement.";
     "Still wandering. Introduce a surprising fact or unexpected reframe to trigger a novelty response and pull focus back.";
     "Try an information gap hook: reveal one piece of information they don't know yet, then pause. The gap creates an itch that re-engages attention automatically."]);
  (StateKey "neutral" "low" "mid" "mid",
   Variants [
     "Attention fracturing under moderate stress. Ask: 'If you had to rank the priorities right now, what comes first?' Decision-making forces re-engagement.";
     "Still split-attention. Strip your message to ONE sentence, hold silence, don't fill it. Let them break the silence — what they say next is your real intelligence.";
     "Still distracted. Reframe by asking for their story from the beginning: narrative mode re-engages the prefrontal cortex."]);
  (StateKey "neutral" "high" "low" "high",
   Variants [
     "Peak analytical state — focused gaze, calm signals. Introduce your strongest data point and follow with: 'What specific outcome matters most to you?'";
     "Still in analytical mode. Use the 'Columbo technique': ask a deceptively simple question about a complex topic. Their detailed answer reveals exactly what they care about.";
     "Sustained high focus. Deploy your core message and hold silence. Analytically-dominant people perceive silence as confidence, not weakness."]);
  (StateKey "neutral" "high" "low" "mid",
   Variants [
     "Low stress, high attention — clean slate. Deploy 'commitment and consistency': ask a small yes-question first: 'Would you agree that X is the main priority here?'";
     "Still focused and calm. Use authority anchoring: cite a specific credible source before your point. Authority cues double retention in calm attentive listeners.";
     "Sustained attentive baseline. Introduce a contrast: show where things could be different. Contrast drives decisions even when emotional arousal is low."]);
  (StateKey "neutral" "medium" "low" "high",
   Variants [
     "Good engagement with calm physiology — ideal for rapport deepening. Mirror their vocabulary, sentence length, and pace precisely.";
     "Sustained high engagement. Use progressive disclosure — one new piece of information at a time. Scarcity of information increases perceived value.";
     "Long-duration high-engagement state. Ask your most important question now — they are mentally ready to engage at depth."]);
  (StateKey "neutral" "medium" "low" "mid",
   Variants [
     "Stable moderate engagement — rapport territory. Use strategic mirroring: repeat their last 2-3 words as a question to deepen their explanation and signal deep listening.";
     "Continued stable baseline. Ask: 'How does this connect to what matters most to you?' Open-ended questions build psychological intimacy and increase investment.";
     "Sustained stable state. Deploy a label: 'It seems like you're carefully considering the implications here.' A well-placed label makes them feel deeply understood."]);
  (StateKey "neutral" "medium" "mid" "mid",
   Variants [
     "Moderate stress with partial engagement — say less, ask more. Questions generate lower cognitive load than statements.";
     "Continued mid-stress. Use a 'no'-oriented question: 'Would it be unreasonable to say you'd prefer to slow down here?' Gives them control and releases pressure.";
     "Persisting mid-stress. Try reframing entirely: introduce a third perspective neither of you has discussed. Novel frames release cognitive tension."]);
  (StateKey "neutral" "high" "mid" "high",
   Variants [
     "High attention + rising stress = cognitive load building. FBI technique: slow your speech 20%, drop pitch, label: 'It seems like you're weighing something carefully…'";
     "High engagement under moderate stress. Ask expansively: 'If pressure weren't a factor at all, what would you do?' Removes the stress frame momentarily.";
     "Sustained stress under high attention. Use the 'accusation audit': name every objection you think they have before they voice it. Anticipating resistance disarms it."]);
  (StateKey "happy" "high" "low" "high",
   Variants [
     "Buying signal — smile, upright posture, full attention. This is your close window. Use the assumptive close: 'So the next step would be…' — transition as if agreement is made.";
     "Still at peak positive state. Switch to a choice close: 'Would you prefer to start with X or Y?' Either answer advances things forward.";
     "Sustained happiness + high engagement. Activate social proof NOW: 'Others in your exact situation chose this path because…' Positive states make social proof 3× more effective."]);
  (StateKey "happy" "high" "low" "mid",
   Variants [
     "Positive affect + focused attention = likability peak. Activate reciprocity: share something exclusive or personal to cement the connection before your key ask.";
     "Still at likability peak. Express a genuine point of commonality — perceived similarity is one of the fastest compliance triggers known.";
     "Sustained positive engagement. Tell a relevant success story about someone similar to them. Story activates mirror neurons and bypasses analytical resistance."]);
  (StateKey "happy" "medium" "low" "high",
   Variants [
     "Relaxed happiness + high engagement — perfect for social proof. Reference: 'Others in this situation have found that…' to anchor your proposal in consensus.";
     "Positive state, moderate attention. Ask for their gut reaction: 'What's your instinct on this?' Gut-level questions deepen investment in outcomes.";
     "Sustained positive state. Use future-pacing: 'Imagine six months from now this worked — what changed?' Future projection in a positive state is highly generative."]);
  (StateKey "happy" "high" "mid" "high",
   Variants [
     "Joy + slight stress — excitement or performance anxiety. Channel it: 'If this worked perfectly, what would that look like for you?'";
     "Continued positive arousal. Use 'foot in the door': make your smallest possible ask first. Success with small asks primes compliance for larger ones.";
     "Sustained excited state. Connect to their identity: 'This fits someone who values X — and from everything you've said, that's exactly who you are.' Identity framing is deeply motivating."]);
  (StateKey "surprised" "high" "low" "high",
   Variants [
     "Peak curiosity window — elevated brows, wide eyes. Deliver your single strongest point RIGHT NOW while the dopamine spike is active. Hesitation closes this window in 8 seconds.";
     "Still in curiosity state. Stack a second surprise layer: 'And what makes this even more compelling is…' Stacked surprises compound the dopamine response.";
     "Sustained surprise = genuine fascination. Transition to co-creation: 'What would YOU do with this information?' Co-creation in curiosity state is extremely productive."]);
  (StateKey "surprised" "high" "mid" "mid",
   Variants [
     "Surprise + moderate stress — new information is creating cognitive dissonance. Hold silence for 5 seconds, then ask: 'What's your first reaction to that?'";
     "Still processing. Ask: 'What part of this is most unexpected to you?' Surfaces their actual objection or point of fascination — critical intelligence.";
     "Continued surprise-processing. Use an accusation audit: name all the doubts you think they're having. Naming eliminates resistance faster than overcoming it."]);
  (StateKey "surprised" "medium" "mid" "mid",
   Variants [
     "Mild surprise with moderate engagement — processing is happening. Use the accusation audit: preemptively name their concern before they voice it.";
     "Still processing mildly. Ask: 'What would need to be true for this to make complete sense to you?' Question converts surprise into a solvable frame.";
     "Sustained mild surprise. Introduce additional supporting evidence — people in a curiosity state absorb information more quickly than in any other state."]);
  (StateKey "fearful" "low" "high" "low",
   Variants [
     "Fight-or-flight activated — body withdrawal, speech pauses. STOP all arguments. Label: 'It seems like this feels overwhelming right now.' Then wait silently.";
     "Still in fear state — amygdala hijacked, logic inaccessible. Offer an off-ramp: 'We don't need to solve this right now. What would make this feel less urgent?'";
     "Prolonged fear. Match your pace to a calm FM DJ voice: very slow, warm, deliberate. Their nervous system will entrain to your calm signals within 90 seconds."]);
  (StateKey "fearful" "medium" "high" "low",
   Variants [
     "Stress flooding with partial attention. Ask a 'no'-oriented question: 'Would it be wrong to say you need more time on this?' Restores control.";
     "Fear persisting. Label the internal experience: 'It seems like there's a concern that hasn't been voiced yet.' Creates permission to surface the real objection.";
     "Sustained fear-partial-attention mix. Validate completely BEFORE introducing any counter-information. Validation before information is the FBI protocol."]);
  (StateKey "fearful" "low" "high" "mid",
   Variants [
     "Fear state with moderate engagement — they want to engage but feel unsafe. Validate fully: 'That concern makes complete sense given what you've described.'";
     "Still fearful but engaged. Create psychological safety: 'There's no wrong answer here — I'm genuinely trying to understand your perspective.' Safety unlocks re-engagement.";
     "Prolonged fear-engagement mix. Ask: 'What specifically would need to be true for you to feel confident moving forward?' Converts anxiety into a solvable problem."]);
  (StateKey "fearful" "medium" "mid" "mid",
   Variants [
     "Mild anxiety — this is buying anxiety, not rejection. Use 'That's right': summarize their position so accurately they feel completely understood.";
     "Continued mild anxiety. Introduce future certainty: describe a specific positive future involving them. Certainty of outcome reduces anxiety biologically.";
     "Persistent low-grade anxiety. Ask: 'What's the one thing that would eliminate that concern?' Directs their energy toward solutions rather than problems."]);
  (StateKey "angry" "medium" "high" "low",
   Variants [
     "Anger spike — jaw tension, restless movement. Do NOT match energy. Lower your volume 30%, let them finish, then label: 'It sounds like this has been frustrating for a long time.'";
     "Anger persisting. Use minimal encouragers — say only 'go on' or 'tell me more'. People cannot sustain anger while feeling genuinely heard.";
     "Sustained anger + low engagement: a core need is unmet. Ask: 'What do you actually need from this situation?' — shift from positions to underlying needs."]);
  (StateKey "angry" "low" "high" "low",
   Variants [
     "Hot anger + disengagement — they've mentally left. Emergency pivot: 'Help me understand — what would have to change for this to work for you?' Ask ONLY about their perspective.";
     "Still angry and gone. Acknowledge without defending: 'I hear that this is not working. That matters.' Pure acknowledgment without defense.";
     "Prolonged anger-disengagement. Give them power: 'What would you do differently if you were in charge of this?' Positions them as the expert."]);
  (StateKey "angry" "medium" "high" "mid",
   Variants [
     "Irritation + partial engagement — they feel unheard. Mirror their last key phrase as a question. Mirroring reduces defensiveness by 40% in under 60 seconds.";
     "Still irritated but present. Use the power of apology: take responsibility for something — even small — related to their frustration. Accountability deflates anger.";
     "Continued irritation-engagement mix. Ask: 'What's the most important thing I've missed about your position?' Positions them as expert, you as student."]);
  (StateKey "angry" "high" "mid" "mid",
   Variants [
     "Agitation + attention still present — channel this energy. Ask a challenge question: 'What's the one thing that would change your mind?' Resistance hides high investment.";
     "Continued engagement under agitation. Name the strength behind their anger: 'The fact you feel this strongly shows how much you care about getting this right.'";
     "Sustained engaged-agitation. Give them a win: 'You're right about X — completely right. Given that, how do we move forward?' Partial agreement creates momentum."]);
  (StateKey "sad" "low" "low" "low",
   Variants [
     "Withdrawal state — low energy, downward gaze. Activate reciprocity through vulnerability: share a relevant personal struggle BEFORE asking anything.";
     "Still withdrawn. Ask for their story: 'What happened that brought you to this point?' Listen for 2 full minutes without interjecting.";
     "Prolonged withdrawal. Introduce possibility slowly: 'If things were just 10% better — what would that look like?' Small future-pacing reopens possibility without pressure."]);
  (StateKey "sad" "medium" "low" "low",
   Variants [
     "Mild sadness with partial attention. Ask for their story: 'What happened that brought you to this point?' People in sadness bond through narrative.";
     "Continued sad-partial engagement. Deepen empathy: 'What's the hardest part of all of this for you?' The hardest part is where the real need lives.";
     "Sustained ambivalent-sad state. Use the miracle question: 'If you woke up tomorrow and the problem was gone — how would you know?' Bypasses resistance and activates motivation."]);
  (StateKey "sad" "low" "mid" "low",
   Variants [
     "Subdued affect signaling low confidence. Use Late Night FM DJ voice: slow, warm, measured. Reflect their emotion before any content: 'This clearly matters to you deeply.'";
     "Still subdued. Introduce possibility: 'What would need to change for this to feel different?' Asking about change implies change is possible — a powerful reframe.";
     "Prolonged subdued state. Ask about the best version of the situation: 'When has this worked well in the past?' Access to positive memory resources often shifts affect."]);
  (StateKey "sad" "medium" "mid" "mid",
   Variants [
     "Sadness + moderate engagement — ambivalence. Use contrast principle: paint the gap between where they are and where they could be. Emotion follows vision.";
     "Persistent sadness with partial engagement. Deepen empathy: 'What's the hardest part of all of this for you?' Then listen fully without adding content.";
     "Sustained ambivalent-sad state. Use the miracle question: 'If you woke up and the problem was solved — how would you know?' Activates motivation directly."]);
  (StateKey "disgusted" "low" "mid" "low",
   Variants [
     "Value mismatch — micro-disgust + low attention. Pivot immediately: 'I sense that landed differently than intended — what part concerns you most?'";
     "Value mismatch persisting. Don't defend the previous frame. Ask what matters most to them and rebuild your position from their anchor point.";
     "Persistent value misalignment. Use inversion: present the OPPOSITE position and ask them to critique it. They'll often argue themselves into your actual position."]);
  (StateKey "disgusted" "medium" "mid" "mid",
   Variants [
     "Subtle rejection — framing isn't resonating. Framing reboot: present the same idea through a completely different lens — individual vs. team, process vs. results.";
     "Continued value friction. Use 'the third story': how would a neutral third party see this situation? Outside perspective breaks in-frame deadlocks.";
     "Sustained misalignment. Find ONE point of genuine agreement and anchor everything else to it. Agreement on any shared value creates a psychological bridge."]);
  (TagKey "__engagement_drop__",
   Variants [
     "Engagement dropping fast. Pattern interrupt: ask their opinion directly, or call it out openly: 'I can see we've hit something — what's on your mind?'";
     "Engagement still falling. Abandon your current agenda. Ask: 'What would make this conversation worth your time?' Let their answer restructure everything.";
     "Engagement collapse continuing. Radical transparency: 'I feel like I've lost you somewhere — where did this stop working?' Meta-commentary often resets the conversation."]);
  (TagKey "__stress_spike__",
   Variants [
     "Stress cascading across all signals. Drop to one sentence, slow your breathing visibly, then give them a choice: 'What feels right to you?' Agency dissolves stress.";
     "Stress still elevated. Remove all demands: 'We don't have to solve this today — what would feel manageable to discuss right now?'";
     "Sustained stress spike. Use the paradoxical injunction: 'Take as long as you need — there's no rush at all.' Removing time pressure often accelerates resolution."]);
  (TagKey "__inconsistency__",
   Variants [
     "Mixed signals — smiling but stress rising. Leakage event. Deploy: 'What aren't we talking about that we should be?' Name the meta-level directly.";
     "Behavioral inconsistency persisting. Ask: 'Your body seems to be saying something your words aren't — what's the real concern here?'";
     "Continued signal contradiction. Try a soft confrontation: 'I notice you say X but I'm getting a different sense — am I reading that wrong?'"]);
  (TagKey "__attention_lost__",
   Variants [
     "Attention has left — gaze and posture confirm cognitive disengagement. Stop all content. Call their name once, ask: 'What's the most important thing you need from this conversation right now?' Hold 10 seconds of silence.";
     "Still disengaged. Full pattern interrupt: physically reposition, lower your voice to near-whisper, and say only: 'Let me start over.' Novelty and humility together reset attention.";
     "Prolonged disengagement. This conversation needs an exit and restart. Say: 'Let's pause — when would be a better time to continue this?' Graceful exits preserve future access."])
].

Definition TACTICS : gmap Key Entry := list_to_map TACTICS_items.

Definition _default_pool : list string := [
  "Stable baseline — all signals calm. Deploy strategic silence: stop talking for 5 seconds and observe micro-reactions. Silence reveals resistance that speech hides.";
  "Neutral baseline. Use the 'summary label': restate their key position verbatim and ask '…is that right?' It triggers the 'That's right' trust response.";
  "Stable environment. Plant a calibrated question: 'What matters most to you in making this decision?' Then listen without interrupting for 90 seconds.";
  "Baseline stable. Apply Cialdini's scarcity principle: introduce a genuine constraint — time or availability. Scarcity elevates perceived value even in calm states.";
  "Consistent stable signals. Use progressive disclosure — share your second most compelling point now, saving the strongest for when engagement peaks.";
  "Clean baseline. Use behavioral mirroring: match their posture, gesture frequency, and breathing pace. Synchrony increases trust by 32% and compliance by 26%.";
  "Signals stable. Deploy an I-statement: 'I'm trying to understand your perspective fully before forming my own.' Epistemic humility paradoxically builds authority.";
  "Sustained neutral. Ask a genuine curiosity question — something you actually don't know the answer to about their situation. Authentic curiosity is one of the rarest and most disarming interpersonal signals."].

Definition flow_state_text : string :=
  "You're in the 'flow state' window — emotional safety and cognitive engagement are both high. This is your highest-leverage moment. Make your most important ask or deliver your key message NOW.".

(** The module-level mutable state: [_key_hit_counts], [_last_key[0]] and
    [_default_idx[0]]. *)
Record Engine := {
  key_hit_counts : gmap Key Z;
  last_key : option Key;
  default_idx : Z
}.

Definition initial_engine : Engine :=
  {| key_hit_counts := ∅; last_key := None; default_idx := 0 |}.

(** Computations over the module state that return or raise. *)
Definition M (A : Type) : Type := Engine → outcome A * Engine.

#[global] Instance M_ret : MRet M := λ A a st, (Return a, st).
#[global] Instance M_bind : MBind M := λ A B f m st,
  match m st with
  | (Return a, st') => f a st'
  | (Raise e, st') => (Raise e, st')
  end.

Definition raise {A} (e : exn) : M A := λ st, (Raise e, st).

(** Lines 163-170 of [_get_tactic]: forget the counter of the previous key
    when the key changes, then read and increment the counter of [key]. The
    value read ([hits]) is returned. *)
Definition count_hit (key : Key) : M Z := λ st,
  let counts :=
    if decide (last_key st ≠ Some key) then
      match last_key st with
      | Some old => if key_truthy old then delete old (key_hit_counts st)
                    else key_hit_counts st
      | None => key_hit_counts st
      end
    else key_hit_counts st in
  let hits := default 0 (counts !! key) in
  (Return hits,
   {| key_hit_counts := <[key := hits + 1]> counts;
      last_key := Some key;
      default_idx := default_idx st |}).

(** [entry[idx]] with [idx = (hits // ROTATION_EVERY) % len(entry)]. *)
Definition pick_variant (entry : list string) (hits : Z) : M (option string) :=
  if decide (length entry = 0%nat) then raise ZeroDivisionError else
  let idx := (hits / ROTATION_EVERY) mod Z.of_nat (length entry) in
  match entry !! Z.to_nat idx with
  | Some text => mret (Some text)
  | None => raise IndexError
  end.

(** The result is [None] when the key is not in [TACTICS]. *)
Definition _get_tactic (key : Key) : M (option string) :=
  hits ← count_hit key;
  match TACTICS !! key with
  | None => mret None
  | Some (Fixed text) => mret (Some text)
  | Some (Variants entry) => pick_variant entry hits
  end.

Definition _zone (val : float) : string :=
  if (val <? 35)%float then "low"
  else if (65 <? val)%float then "high"
  else "mid".

(** [if result:] on a value that is [None] or a [str]. *)
Definition truthy (result : option string) : bool :=
  match result with
  | Some text => Py.str_truthy text
  | None => false
  end.

(** [if alerts:] on a list. *)
Definition list_truthy {A} (l : list A) : bool :=
  match l with
  | [] => false
  | _ :: _ => true
  end.

(** The four tests on the alert texts (lines 412-418). *)
Definition mentions_attention (a : string) : bool :=
  existsb (λ kw, Py.contains kw a) ["Attention"; "attention"; "disengaged"; "Disengaged"].
Definition mentions_engagement (a : string) : bool :=
  Py.contains "Engagement dropping" a || Py.contains "Very low engagement" a.
Definition mentions_stress (a : string) : bool :=
  Py.contains "Stress" a || Py.contains "stress" (Py.lower a).
Definition mentions_inconsistent (a : string) : bool :=
  Py.contains "Inconsistent" a.

(** Section 6: the rotating default. *)
Definition rotating_default : M (option string) := λ st,
  let idx := default_idx st mod Z.of_nat (length _default_pool) in
  let st' := {| key_hit_counts := key_hit_counts st;
                last_key := last_key st;
                default_idx := default_idx st + 1 |} in
  match _default_pool !! Z.to_nat idx with
  | Some text => (Return (Some text), st')
  | None => (Raise IndexError, st')
  end.

(** The [for fuzzy_key in [...]] loop: the first truthy result, or [None]
    when the loop runs to its end. *)
Fixpoint first_match (keys : list Key) : M (option string) :=
  match keys with
  | [] => mret None
  | fuzzy_key :: rest =>
      result ← _get_tactic fuzzy_key;
      if truthy result then mret result else first_match rest
  end.

(** Sections 4, 5 and 6: exact lookup, fuzzy match, flow state, default. *)
Definition lookup_stage (emotion attention s_zone e_zone : string)
    (stress engagement : float) : M (option string) :=
  result ← _get_tactic (StateKey emotion attention s_zone e_zone);
  if truthy result then mret result else
  result ← first_match [
    StateKey emotion attention "mid" e_zone;
    StateKey emotion attention s_zone "mid";
    StateKey emotion attention "mid" "mid";
    StateKey emotion "medium" s_zone e_zone;
    StateKey emotion "medium" "mid" e_zone;
    StateKey emotion "medium" "mid" "mid"];
  if truthy result then mret result else
  if ((70 <? engagement) && (stress <? 35))%float then mret (Some flow_state_text)
  else rotating_default.

(** Section 3: the hard overrides, then sections 4-6. *)
Definition override_stage (emotion attention s_zone e_zone : string)
    (stress engagement : float) : M (option string) :=
  if decide (attention = "low") then
    result ← _get_tactic (StateKey emotion "low" s_zone e_zone);
    if truthy result then mret result
    else _get_tactic (TagKey "__attention_lost__")
  else if (65 <? stress)%float then
    result ← _get_tactic (StateKey emotion attention "high" e_zone);
    if truthy result then mret result
    else _get_tactic (TagKey "__stress_spike__")
  else if (engagement <? 30)%float then
    _get_tactic (TagKey "__engagement_drop__")
  else lookup_stage emotion attention s_zone e_zone stress engagement.

(** [h.get("emotion", "neutral")]. *)
Definition emotion_of (h : Snapshot) : string := default "neutral" (emotion h).

(** Section 1 (lines 411-419): the tag the alerts dispatch to, [None] when
    the section falls through. *)
Definition alert_tag (alerts : list string) : option Key :=
  if list_truthy alerts then
    if existsb mentions_attention alerts then Some (TagKey "__attention_lost__")
    else if existsb mentions_engagement alerts then Some (TagKey "__engagement_drop__")
    else if existsb mentions_stress alerts then Some (TagKey "__stress_spike__")
    else if existsb mentions_inconsistent alerts then Some (TagKey "__inconsistency__")
    else None
  else None.

(** Section 2 (lines 422-431): the tag the trend over the last three
    snapshots dispatches to, [None] when the section falls through. *)
Definition trend_tag (history : list Snapshot) (emotion : string)
    (stress engagement : float) : outcome (option Key) :=
  if decide (3 ≤ length history)%nat then
    match Py.index_from_end 3 history with
    | None => Raise IndexError
    | Some third_last =>
        let eng_trend :=
          (engagement - default engagement (engagement_score third_last))%float in
        let stress_trend :=
          (stress - default stress (stress_score third_last))%float in
        if (eng_trend <? -15)%float then Return (Some (TagKey "__engagement_drop__"))
        else if (15 <? stress_trend)%float then Return (Some (TagKey "__stress_spike__"))
        else
          let emotions := (emotion_of <$> Py.last_n 3 history) ++ [emotion] in
          if decide (3 ≤ size (list_to_set emotions : gset string))%nat
          then Return (Some (TagKey "__inconsistency__"))
          else Return None
    end
  else Return None.

Definition _psychology_fallback (current : Snapshot) (history : list Snapshot)
    (alerts : list string) : M (option string) :=
  let emotion := emotion_of current in
  let attention := default "medium" (attention current) in
  let stress := default 20%float (stress_score current) in
  let engagement := default 50%float (engagement_score current) in
  let s_zone := _zone stress in
  let e_zone := _zone engagement in
  match alert_tag alerts with
  | Some tag => _get_tactic tag
  | None =>
      match trend_tag history emotion stress engagement with
      | Raise e => raise e
      | Return (Some tag) => _get_tactic tag
      | Return None => override_stage emotion attention s_zone e_zone stress engagement
      end
  end.




(** ** Running computations *)

Definition eval {A} (m : M A) (st : Engine) : outcome A := (m st).1.
Definition exec {A} (m : M A) (st : Engine) : Engine := (m st).2.

(** The calls of [ms] one after the other; the results in call order. *)
Fixpoint sequence {A} (ms : list (M A)) : M (list A) :=
  match ms with
  | [] => mret []
  | m :: rest => a ← m; others ← sequence rest; mret (a :: others)
  end.

(** The window after appending [snapshots] one by one to [state_memory]. *)
Definition remember_all (snapshots state_memory : list Snapshot) : list Snapshot :=
  foldl (λ memory s, remember s memory) state_memory snapshots.

(** At most one counter, the one of [_last_key[0]], which is truthy. *)
Definition single_counter (st : Engine) : Prop :=
  ∀ k, is_Some (key_hit_counts st !! k) →
       last_key st = Some k ∧ key_truthy k = true.

(** A score within [0.0, 100.0]. *)
Definition in_range (x : float) : Prop :=
  (0 <=? x)%float = true ∧ (x <=? 100)%float = true.

(** ** The design document's wording, for comparison with the code *)

Module Spec.

(** Section 3: the alert tags. *)
Inductive Alert :=
| engagement_dropping
| stress_spiking
| very_low_engagement
| high_stress
| attention_lost.

#[global] Instance Alert_eq_dec : EqDecision Alert.
Proof. solve_decision. Defined.

Definition all_alerts : list Alert :=
  [engagement_dropping; stress_spiking; very_low_engagement; high_stress;
   attention_lost].

(** The text [detect_alerts] uses for a tag. *)
Definition alert_text (a : Alert) : string :=
  match a with
  | engagement_dropping => engagement_dropping_text
  | stress_spiking => stress_spiking_text
  | very_low_engagement => very_low_engagement_text
  | high_stress => high_stress_text
  | attention_lost => attention_lost_text
  end.

(** Section 4.1: the weight tables; a value not listed weighs zero. *)
Definition attention_weight (v : string) : float :=
  if decide (v = "high") then 30 else if decide (v = "medium") then 10
  else if decide (v = "low") then -20 else 0.
Definition emotion_engagement (v : string) : float :=
  if decide (v = "happy") then 15 else if decide (v = "surprised") then 10
  else if decide (v = "neutral") then 0 else if decide (v = "sad") then -10
  else if decide (v = "angry") then -5 else if decide (v = "disgusted") then -15
  else if decide (v = "fearful") then -10 else 0.
Definition posture_engagement (v : string) : float :=
  if decide (v = "upright") then 10 else if decide (v = "leaning_forward") then 15
  else if decide (v = "neutral") then 0 else if decide (v = "slouched") then -15 else 0.
Definition speech_engagement (v : string) : float :=
  if decide (v = "fast") then -5 else if decide (v = "normal") then 5
  else if decide (v = "slow") then 0 else if decide (v = "silent") then -10 else 0.
Definition emotion_stress (v : string) : float :=
  if decide (v = "fearful") then 40 else if decide (v = "angry") then 35
  else if decide (v = "disgusted") then 25 else if decide (v = "sad") then 20
  else if decide (v = "surprised") then 15 else if decide (v = "neutral") then 5
  else if decide (v = "happy") then -10 else 0.
Definition tone_stress (v : string) : float :=
  if decide (v = "stressed") then 25 else if decide (v = "calm") then -10
  else if decide (v = "neutral") then 0 else if decide (v = "excited") then 10 else 0.
Definition pauses_stress (v : string) : float :=
  if decide (v = "frequent") then 15 else if decide (v = "minimal") then 0
  else if decide (v = "none") then 5 else 0.
Definition movement_stress (v : string) : float :=
  if decide (v = "restless") then 20 else if decide (v = "moderate") then 5
  else if decide (v = "still") then -5 else 0.
Definition posture_confidence (v : string) : float :=
  if decide (v = "upright") then 20 else if decide (v = "leaning_forward") then 15
  else if decide (v = "neutral") then 0 else if decide (v = "slouched") then -20 else 0.
Definition emotion_confidence (v : string) : float :=
  if decide (v = "happy") then 15 else if decide (v = "neutral") then 5
  else if decide (v = "surprised") then -5 else if decide (v = "angry") then -10
  else if decide (v = "fearful") then -25 else if decide (v = "sad") then -15
  else if decide (v = "disgusted") then -10 else 0.
Definition speech_confidence (v : string) : float :=
  if decide (v = "fast") then -5 else if decide (v = "normal") then 10
  else if decide (v = "slow") then -5 else if decide (v = "silent") then -15 else 0.

(** Clamp to [0,100]. *)
Definition clamp (x : float) : float :=
  if (x <? 0)%float then 0%float
  else if (100 <? x)%float then 100%float
  else x.

(** Section 4.1: baseline, additive weights, clamp. *)
Definition score (emotion attention posture movement speech pauses tone : string)
    : float * float * float :=
  (clamp (50 + attention_weight attention + emotion_engagement emotion
          + posture_engagement posture + speech_engagement speech),
   clamp (20 + emotion_stress emotion + tone_stress tone
          + pauses_stress pauses + movement_stress movement),
   clamp (50 + 0.5 * attention_weight attention + posture_confidence posture
          + emotion_confidence emotion + speech_confidence speech))%float.

(** Section 4.2: the mean of a window. *)
Definition mean (xs : list float) : float :=
  (Py.sum xs / Py.of_len (length xs))%float.

(** Section 4.2: the last [min(3, len(history))] entries. *)
Definition window {A} (history : list A) : list A :=
  drop (length history - Nat.min 3 (length history)) history.

(** Section 4.2: whether the check of a tag fires, given the current
    engagement, stress and attention and the two windows. *)
Definition fires (engagement stress : float) (attention : string)
    (window_engagement window_stress : list float) (a : Alert) : bool :=
  match a with
  | engagement_dropping => (engagement <? mean window_engagement - 20)%float
  | stress_spiking => (mean window_stress + 20 <? stress)%float
  | very_low_engagement => (engagement <? 30)%float
  | high_stress => (75 <? stress)%float
  | attention_lost => bool_decide (attention = "low")
  end.

(** Section 4.2: the alerts, in the fixed order of the checks. *)
Definition detect (engagement stress : float) (attention : string)
    (history_engagement history_stress : list float) : list Alert :=
  if decide (length history_engagement < 2)%nat then []
  else filter (λ a, fires engagement stress attention
                      (window history_engagement) (window history_stress) a = true)
              all_alerts.



End Spec.

(** ** Finite enumeration of the scores *)

(** The values a lookup [m.get(k, 0.0)] can take for a dict literal. *)
Definition weights (items : list (string * float)) : list float :=
  0%float :: items.*2.

(** The sums [base + a + b + c + d] over four lists of weights. *)
Definition sums4 (base : float) (w1 w2 w3 w4 : list float) : list float :=
  a ← w1; b ← w2; c ← w3; d ← w4; [(base + a + b + c + d)%float].

(** What the final clamp of [compute_scores] must satisfy on a sum. *)
Definition clamp_ok (x : float) : Prop :=
  Py.max 0 (Py.min 100 x) = Spec.clamp x ∧ in_range (Spec.clamp x).

(** ** Rotation: what a call reads and what the catalogue holds *)

(** The counter of [key] as the next call of [_get_tactic key] reads it:
    [_key_hit_counts.get(key, 0)]. *)
Definition hits_seen (key : Key) (st : Engine) : Z :=
  default 0 (key_hit_counts st !! key).

(** The text at variant index 0 of the entry of [key]. *)
Definition first_variant (key : Key) : option string :=
  match TACTICS !! key with
  | Some (Fixed text) => Some text
  | Some (Variants entry) => entry !! 0%nat
  | None => None
  end.

(** An entry with exactly three variants, none of them empty. *)
Definition entry_ok (e : Entry) : bool :=
  match e with
  | Variants [a; b; c] => Py.str_truthy a && Py.str_truthy b && Py.str_truthy c
  | _ => false
  end.

(** The four crisis tags of the catalogue. *)
Definition crisis_tags : list string :=
  ["__attention_lost__"; "__engagement_drop__"; "__stress_spike__";
   "__inconsistency__"].

(** A computation that, from every state, returns a non-empty text. *)
Definition returns_text (m : M (option string)) : Prop :=
  ∀ st, ∃ text st', m st = (Return (Some text), st') ∧ text ≠ "".

(** The state key of the hard override a snapshot falls under (attention
    low, else stress above 65) with the crisis tag that override falls back
    to; [None] when no override with a fallback applies. *)
Definition override_lookup (current : Snapshot) : option (Key * string) :=
  let emotion := emotion_of current in
  let attention := default "medium" (attention current) in
  let stress := default 20%float (stress_score current) in
  let engagement := default 50%float (engagement_score current) in
  if decide (attention = "low") then
    Some (StateKey emotion "low" (_zone stress) (_zone engagement),
          "__attention_lost__")
  else if (65 <? stress)%float then
    Some (StateKey emotion attention "high" (_zone engagement),
          "__stress_spike__")
  else None.

(** The call reaches the hard overrides: no alert matches and no trend fires. *)
Definition reaches_overrides (current : Snapshot) (history : list Snapshot)
    (alerts : list string) : Prop :=
  alert_tag alerts = None ∧
  trend_tag history (emotion_of current)
    (default 20%float (stress_score current))
    (default 50%float (engagement_score current)) = Return None.

(** ** Sample data *)

(** A complete snapshot as [analyze] builds it. *)
Definition sample (emotion attention : string) (engagement stress : float)
    : Snapshot :=
  {| emotion := Some emotion;
     posture := Some "neutral";
     attention := Some attention;
     movement := Some "still";
     engagement_score := Some engagement;
     stress_score := Some stress;
     confidence_score := Some 50%float;
     audio := Some (list_to_map [("speech_speed", "normal"); ("pauses", "minimal");
                                 ("tone_indicator", "neutral")]) |}.

(** A full window of five snapshots and a sixth, current one. *)
Definition full_window : list Snapshot :=
  [sample "neutral" "high" 80 10; sample "neutral" "high" 78 10;
   sample "neutral" "high" 76 10; sample "happy" "high" 85 5;
   sample "happy" "medium" 70 10].

Definition sixth : Snapshot := sample "neutral" "medium" 60 25.

(** * Properties *)

(** ** The rolling window (main.py, lines 176-179) *)

Section Window.
Context {A : Type}.
Implicit Types l k : list A.

Lemma last_n_short n l : (length l ≤ n)%nat → Py.last_n n l = l.
Proof.
  intros Hle. unfold Py.last_n.
  replace (length l - n)%nat with 0%nat by lia. done.
Qed.

Lemma length_last_n n l : length (Py.last_n n l) = Nat.min n (length l).
Proof. unfold Py.last_n. rewrite length_drop. lia. Qed.

Lemma last_n_app_last_n n l k :
  Py.last_n n (Py.last_n n l ++ k) = Py.last_n n (l ++ k).
Proof.
  destruct (decide (length l ≤ n)%nat) as [Hle|Hgt].
  - by rewrite (last_n_short n l).
  - unfold Py.last_n. rewrite !length_app, length_drop.
    replace (length l - (length l - n) + length k - n)%nat
      with (length k) by lia.
    replace (length l + length k - n)%nat
      with ((length l - n) + length k)%nat by lia.
    rewrite <- drop_drop. f_equal.
    rewrite drop_app_le by lia. done.
Qed.
End Window.

Lemma remember_last_n s memory :
  (length memory ≤ 5)%nat → remember s memory = Py.last_n 5 (memory ++ [s]).
Proof.
  intros Hle. unfold remember, Py.last_n.
  rewrite length_app. simpl. case_decide.
  - replace (length memory + 1 - 5)%nat with 1%nat by lia. done.
  - replace (length memory + 1 - 5)%nat with 0%nat by lia. done.
Qed.

Lemma remember_all_last_n snapshots : ∀ memory,
  (length memory ≤ 5)%nat →
  remember_all snapshots memory = Py.last_n 5 (memory ++ snapshots).
Proof.
  induction snapshots as [|s snapshots IH]; intros memory Hle.
  - unfold remember_all. simpl. rewrite app_nil_r. by rewrite last_n_short.
  - change (remember_all (s :: snapshots) memory)
      with (remember_all snapshots (remember s memory)).
    rewrite remember_last_n by done.
    rewrite IH by (rewrite length_last_n; lia).
    rewrite last_n_app_last_n. by rewrite <- app_assoc.
Qed.

(** C4: from the empty window, any run of appends leaves at most 5 snapshots,
    namely the last 5 appended, oldest first; an append onto a window of
    fewer than 5 adds at the end, an append onto a full window also drops
    index 0; and 7 appends leave exactly the snapshots 3 to 7. *)
Theorem history_window_bounded :
  (∀ snapshots,
     (length (remember_all snapshots []) ≤ 5)%nat ∧
     remember_all snapshots [] = Py.last_n 5 snapshots) ∧
  (∀ snapshots s,
     let memory := remember_all snapshots [] in
     remember s memory =
       if decide (length memory < 5)%nat then memory ++ [s]
       else drop 1 memory ++ [s]) ∧
  (∀ s1 s2 s3 s4 s5 s6 s7,
     remember_all [s1; s2; s3; s4; s5; s6; s7] [] = [s3; s4; s5; s6; s7]).
Proof.
  assert (Hall : ∀ snapshots,
    remember_all snapshots [] = Py.last_n 5 snapshots).
  { intros. rewrite remember_all_last_n by (simpl; lia). done. }
  split_and!.
  - intros snapshots. split; [|done].
    rewrite Hall, length_last_n. lia.
  - intros snapshots s memory.
    assert (length memory ≤ 5)%nat as Hle.
    { unfold memory. rewrite Hall, length_last_n. lia. }
    unfold remember. rewrite length_app. simpl.
    repeat case_decide; try lia; try done.
    destruct memory; [simpl in *; lia | done].
  - reflexivity.
Qed.

(** ** Scores (main.py, compute_scores) *)

Lemma get_nil (k : string) (d : float) : Py.get (list_to_map []) k d = d.
Proof. unfold Py.get. simpl. by rewrite lookup_empty. Qed.

Lemma get_cons (k' : string) (v : float) items k d :
  Py.get (list_to_map ((k', v) :: items)) k d =
    if decide (k = k') then v else Py.get (list_to_map items) k d.
Proof.
  unfold Py.get. simpl. case_decide as Hk.
  - subst. by rewrite lookup_insert_eq.
  - by rewrite lookup_insert_ne.
Qed.

Lemma get_weights items k : Py.get (list_to_map items) k 0%float ∈ weights items.
Proof.
  induction items as [|[k' v] items IH].
  - rewrite get_nil. unfold weights. constructor.
  - rewrite get_cons. unfold weights in *. simpl.
    case_decide; [do 2 constructor|].
    apply elem_of_cons in IH as [->|IH]; [constructor | by do 2 constructor].
Qed.

Lemma sums4_elem base w1 w2 w3 w4 a b c d :
  a ∈ w1 → b ∈ w2 → c ∈ w3 → d ∈ w4 →
  (base + a + b + c + d)%float ∈ sums4 base w1 w2 w3 w4.
Proof.
  intros Ha Hb Hc Hd. unfold sums4.
  apply list_elem_of_bind; exists a; split; [|done].
  apply list_elem_of_bind; exists b; split; [|done].
  apply list_elem_of_bind; exists c; split; [|done].
  apply list_elem_of_bind; exists d; split; [|done].
  constructor.
Qed.

Ltac table_eq :=
  unfold attention_map, emotion_eng_map, posture_map, speech_map,
    emotion_stress_map, tone_stress_map, pause_stress_map, movement_stress_map,
    conf_posture_map, conf_emotion_map, conf_speech_map;
  rewrite ?get_cons, get_nil; reflexivity.

Lemma attention_map_spec v : Py.get attention_map v 0%float = Spec.attention_weight v.
Proof. table_eq. Qed.
Lemma emotion_eng_map_spec v : Py.get emotion_eng_map v 0%float = Spec.emotion_engagement v.
Proof. table_eq. Qed.
Lemma posture_map_spec v : Py.get posture_map v 0%float = Spec.posture_engagement v.
Proof. table_eq. Qed.
Lemma speech_map_spec v : Py.get speech_map v 0%float = Spec.speech_engagement v.
Proof. table_eq. Qed.
Lemma emotion_stress_map_spec v : Py.get emotion_stress_map v 0%float = Spec.emotion_stress v.
Proof. table_eq. Qed.
Lemma tone_stress_map_spec v : Py.get tone_stress_map v 0%float = Spec.tone_stress v.
Proof. table_eq. Qed.
Lemma pause_stress_map_spec v : Py.get pause_stress_map v 0%float = Spec.pauses_stress v.
Proof. table_eq. Qed.
Lemma movement_stress_map_spec v : Py.get movement_stress_map v 0%float = Spec.movement_stress v.
Proof. table_eq. Qed.
Lemma conf_posture_map_spec v : Py.get conf_posture_map v 0%float = Spec.posture_confidence v.
Proof. table_eq. Qed.
Lemma conf_emotion_map_spec v : Py.get conf_emotion_map v 0%float = Spec.emotion_confidence v.
Proof. table_eq. Qed.
Lemma conf_speech_map_spec v : Py.get conf_speech_map v 0%float = Spec.speech_confidence v.
Proof. table_eq. Qed.

Lemma half_attention v :
  (Py.get attention_map v 0 * 0.5)%float = (0.5 * Spec.attention_weight v)%float ∧
  (Py.get attention_map v 0 * 0.5)%float ∈ [0; 15; 5; -10]%float.
Proof.
  rewrite attention_map_spec. unfold Spec.attention_weight.
  repeat case_decide; (split; [reflexivity | vm_compute; repeat constructor]).
Qed.

Ltac all_clamp_ok := vm_compute; repeat constructor.

Lemma engagement_sums_ok :
  Forall clamp_ok
    (sums4 50
       (weights [("high", 30); ("medium", 10); ("low", -20)]%float)
       (weights [("happy", 15); ("surprised", 10); ("neutral", 0);
                 ("sad", -10); ("angry", -5); ("disgusted", -15); ("fearful", -10)]%float)
       (weights [("upright", 10); ("leaning_forward", 15); ("neutral", 0);
                 ("slouched", -15)]%float)
       (weights [("fast", -5); ("normal", 5); ("slow", 0); ("silent", -10)]%float)).
Proof. all_clamp_ok. Qed.

Lemma stress_sums_ok :
  Forall clamp_ok
    (sums4 20
       (weights [("fearful", 40); ("angry", 35); ("disgusted", 25);
                 ("sad", 20); ("surprised", 15); ("neutral", 5); ("happy", -10)]%float)
       (weights [("stressed", 25); ("calm", -10); ("neutral", 0); ("excited", 10)]%float)
       (weights [("frequent", 15); ("minimal", 0); ("none", 5)]%float)
       (weights [("restless", 20); ("moderate", 5); ("still", -5)]%float)).
Proof. all_clamp_ok. Qed.

Lemma confidence_sums_ok :
  Forall clamp_ok
    (sums4 50
       [0; 15; 5; -10]%float
       (weights [("upright", 20); ("leaning_forward", 15); ("neutral", 0);
                 ("slouched", -20)]%float)
       (weights [("happy", 15); ("neutral", 5); ("surprised", -5);
                 ("angry", -10); ("fearful", -25); ("sad", -15); ("disgusted", -10)]%float)
       (weights [("fast", -5); ("normal", 10); ("slow", -5); ("silent", -15)]%float)).
Proof. all_clamp_ok. Qed.

(** C2: for all signal dicts, recognised values or not, the three scores of
    [compute_scores] lie in [0.0, 100.0], and they are the baseline plus the
    documented weights (zero for a value not listed), clamped last. *)
Theorem compute_scores_in_range_and_as_documented
    (vision_signals : gmap string string)
    (audio_signals : option (gmap string string)) :
  let emotion := Py.get vision_signals "emotion" "neutral" in
  let attention := Py.get vision_signals "attention" "medium" in
  let posture := Py.get vision_signals "posture" "neutral" in
  let movement := Py.get vision_signals "movement" "moderate" in
  let speech := audio_get audio_signals "speech_speed" "normal" in
  let pauses := audio_get audio_signals "pauses" "minimal" in
  let tone := audio_get audio_signals "tone_indicator" "neutral" in
  let scores := compute_scores vision_signals audio_signals in
  in_range scores.1.1 ∧ in_range scores.1.2 ∧ in_range scores.2 ∧
  scores = Spec.score emotion attention posture movement speech pauses tone.
Proof.
  intros emotion attention posture movement speech pauses tone scores.
  pose proof (half_attention attention) as [Hhalf Hhalf_in].
  assert (clamp_ok (50 + Py.get attention_map attention 0
                    + Py.get emotion_eng_map emotion 0
                    + Py.get posture_map posture 0
                    + Py.get speech_map speech 0)%float) as [He1 He2].
  { eapply (proj1 (Forall_forall _ _) engagement_sums_ok).
    apply sums4_elem; apply get_weights. }
  assert (clamp_ok (20 + Py.get emotion_stress_map emotion 0
                    + Py.get tone_stress_map tone 0
                    + Py.get pause_stress_map pauses 0
                    + Py.get movement_stress_map movement 0)%float) as [Hs1 Hs2].
  { eapply (proj1 (Forall_forall _ _) stress_sums_ok).
    apply sums4_elem; apply get_weights. }
  assert (clamp_ok (50 + Py.get attention_map attention 0 * 0.5
                    + Py.get conf_posture_map posture 0
                    + Py.get conf_emotion_map emotion 0
                    + Py.get conf_speech_map speech 0)%float) as [Hc1 Hc2].
  { eapply (proj1 (Forall_forall _ _) confidence_sums_ok).
    apply sums4_elem; [done | apply get_weights..]. }
  assert (scores = Spec.score emotion attention posture movement speech pauses tone)
    as Heq.
  { unfold scores, compute_scores, Spec.score.
    fold emotion attention posture movement speech pauses tone.
    rewrite He1, Hs1, Hc1, Hhalf.
    by rewrite !attention_map_spec, emotion_eng_map_spec, posture_map_spec,
      speech_map_spec, emotion_stress_map_spec, tone_stress_map_spec,
      pause_stress_map_spec, movement_stress_map_spec, conf_posture_map_spec,
      conf_emotion_map_spec, conf_speech_map_spec. }
  rewrite Hhalf in Hc2.
  rewrite attention_map_spec, emotion_eng_map_spec, posture_map_spec,
    speech_map_spec in He2.
  rewrite emotion_stress_map_spec, tone_stress_map_spec, pause_stress_map_spec,
    movement_stress_map_spec in Hs2.
  rewrite conf_posture_map_spec, conf_emotion_map_spec, conf_speech_map_spec in Hc2.
  rewrite Heq. unfold Spec.score. cbn [fst snd]. done.
Qed.

(** ** Alerts (main.py, detect_alerts) *)

Lemma window_last_n {A} (l : list A) : Spec.window l = Py.last_n 3 l.
Proof. unfold Spec.window, Py.last_n. f_equal. lia. Qed.

Lemma mapM_last_n {A B} (f : A → option B) n l k :
  mapM f l = Some k → mapM f (Py.last_n n l) = Some (Py.last_n n k).
Proof.
  intros Hall%mapM_Some_1. apply mapM_Some_2. unfold Py.last_n.
  rewrite <- (Forall2_length _ _ _ Hall). by apply Forall2_drop.
Qed.

Lemma mapM_length_eq {A B} (f : A → option B) l k :
  mapM f l = Some k → length k = length l.
Proof. intros Hall%mapM_Some_1. symmetry. by eapply Forall2_length. Qed.

Lemma detect_alerts_few current memory :
  (length memory < 2)%nat → detect_alerts current memory = Return [].
Proof. intros Hlt. unfold detect_alerts. by case_decide. Qed.

Lemma detect_alerts_complete current memory eng stress att hist_eng hist_stress :
  engagement_score current = Some eng →
  stress_score current = Some stress →
  attention current = Some att →
  mapM engagement_score memory = Some hist_eng →
  mapM stress_score memory = Some hist_stress →
  detect_alerts current memory =
    Return (Spec.alert_text <$> Spec.detect eng stress att hist_eng hist_stress).
Proof.
  intros Heng Hstress Hatt Hhe Hhs.
  pose proof (mapM_length_eq _ _ _ Hhe) as Hlen.
  unfold detect_alerts, Spec.detect. rewrite Hlen.
  case_decide as Hshort; [done|].
  rewrite (mapM_last_n _ 3 _ _ Hhe), (mapM_last_n _ 3 _ _ Hhs).
  rewrite Heng, Hstress, Hatt.
  rewrite !window_last_n.
  assert (length (Py.last_n 3 memory) = length (Py.last_n 3 hist_eng)) as ->.
  { rewrite !length_last_n. lia. }
  assert (length (Py.last_n 3 hist_eng) = length (Py.last_n 3 hist_stress)) as Hw.
  { rewrite !length_last_n, Hlen, (mapM_length_eq _ _ _ Hhs). done. }
  unfold Spec.all_alerts. rewrite !filter_cons, filter_nil.
  unfold Spec.fires, Spec.mean. rewrite <- Hw.
  unfold append_if.
  repeat (case_decide as Hc;
          [rewrite Hc | apply not_true_is_false in Hc; rewrite Hc]; clear Hc);
    reflexivity.
Qed.

Lemma alert_texts_NoDup : NoDup (Spec.alert_text <$> Spec.all_alerts).
Proof. apply (bool_decide_unpack _). vm_compute. exact I. Qed.

Lemma detect_alerts_texts current memory alerts :
  detect_alerts current memory = Return alerts →
  alerts `sublist_of` (Spec.alert_text <$> Spec.all_alerts) ∧ NoDup alerts.
Proof.
  intros Hret.
  assert (alerts `sublist_of` (Spec.alert_text <$> Spec.all_alerts)) as Hsub.
  { revert Hret. unfold detect_alerts. case_decide.
    - intros [= <-]. repeat constructor.
    - repeat case_match; try discriminate. intros [= <-].
      unfold append_if.
      repeat match goal with
             | |- context [if ?b then _ else _] => destruct b
             end; repeat constructor. }
  split; [done|]. eapply sublist_NoDup; [apply alert_texts_NoDup | done].
Qed.

(** C3: [detect_alerts] returns the empty list on a history of fewer than 2
    snapshots; on complete snapshots it returns, in the fixed order, exactly
    the tags whose check fires against the mean of the last min(3, len)
    history entries (engagement_dropping, stress_spiking, very_low_engagement,
    high_stress, attention_lost), each check on its own; and whatever it
    returns runs through the five texts in order with no text twice. *)
Theorem detect_alerts_as_documented :
  (∀ current memory,
     (length memory < 2)%nat → detect_alerts current memory = Return []) ∧
  (∀ current memory eng stress att hist_eng hist_stress,
     engagement_score current = Some eng →
     stress_score current = Some stress →
     attention current = Some att →
     mapM engagement_score memory = Some hist_eng →
     mapM stress_score memory = Some hist_stress →
     detect_alerts current memory =
       Return (Spec.alert_text <$> Spec.detect eng stress att hist_eng hist_stress)) ∧
  (∀ current memory alerts,
     detect_alerts current memory = Return alerts →
     alerts `sublist_of` (Spec.alert_text <$> Spec.all_alerts) ∧ NoDup alerts).
Proof.
  split_and!.
  - apply detect_alerts_few.
  - apply detect_alerts_complete.
  - apply detect_alerts_texts.
Qed.

(** ** The catalogue (reasoning.py, TACTICS and _default_pool) *)

Lemma str_truthy_nonempty s : Py.str_truthy s = true → s ≠ "".
Proof. intros Ht ->. discriminate Ht. Qed.

Lemma TACTICS_items_ok : forallb (λ item, entry_ok item.2) TACTICS_items = true.
Proof. vm_compute. reflexivity. Qed.

Lemma TACTICS_three_variants key e :
  TACTICS !! key = Some e →
  ∃ a b c, e = Variants [a; b; c] ∧
           Py.str_truthy a = true ∧ Py.str_truthy b = true ∧ Py.str_truthy c = true.
Proof.
  intros Hin%elem_of_list_to_map_2%list_elem_of_In.
  pose proof (proj1 (forallb_forall _ _) TACTICS_items_ok _ Hin) as Hok.
  simpl in Hok. destruct e as [|[|a [|b [|c [|]]]]]; try discriminate Hok.
  apply andb_prop in Hok as [[Ha Hb]%andb_prop Hc].
  exists a, b, c. done.
Qed.

(** From here on the catalogue is only evaluated in full ([vm_compute]); the
    proof search does not unfold it. *)
#[global] Opaque TACTICS.

Lemma default_pool_ok : forallb Py.str_truthy _default_pool = true.
Proof. vm_compute. reflexivity. Qed.

(** ** The rotation state (reasoning.py, _get_tactic) *)

Lemma count_hit_run key st :
  count_hit key st =
    (Return (hits_seen key st), exec (count_hit key) st) ∧
  last_key (exec (count_hit key) st) = Some key ∧
  default_idx (exec (count_hit key) st) = default_idx st ∧
  key_hit_counts (exec (count_hit key) st) !! key = Some (hits_seen key st + 1).
Proof.
  unfold exec, count_hit, hits_seen. simpl.
  assert ((if decide (last_key st ≠ Some key)
           then match last_key st with
                | Some old => if key_truthy old then delete old (key_hit_counts st)
                              else key_hit_counts st
                | None => key_hit_counts st
                end
           else key_hit_counts st) !! key = key_hit_counts st !! key) as Hsame.
  { case_decide as Hne; [|done].
    destruct (last_key st) as [old|]; [|done].
    destruct (key_truthy old); [|done].
    apply lookup_delete_ne. congruence. }
  rewrite Hsame. split_and!; try done. by rewrite lookup_insert_eq.
Qed.

Lemma hits_seen_after key st :
  hits_seen key (exec (count_hit key) st) = hits_seen key st + 1.
Proof.
  destruct (count_hit_run key st) as (_ & _ & _ & Hc).
  unfold hits_seen at 1. by rewrite Hc.
Qed.

Lemma pick_variant_run entry hits st :
  entry ≠ [] →
  ∃ text, entry !! Z.to_nat ((hits / ROTATION_EVERY) mod Z.of_nat (length entry))
            = Some text ∧
          pick_variant entry hits st = (Return (Some text), st).
Proof.
  intros Hne. unfold pick_variant.
  assert (0 < length entry)%nat as Hpos by (destruct entry; [done | simpl; lia]).
  case_decide as Hz; [lia|].
  pose proof (Z.mod_pos_bound (hits / ROTATION_EVERY) (Z.of_nat (length entry)))
    as Hbound.
  destruct (lookup_lt_is_Some_2 entry
              (Z.to_nat ((hits / ROTATION_EVERY) mod Z.of_nat (length entry))))
    as [text Htext]; [lia|].
  exists text. by rewrite Htext.
Qed.

(** A call on a key of the catalogue. *)
Lemma get_tactic_hit key entry st :
  TACTICS !! key = Some (Variants entry) →
  ∃ text,
    entry !! Z.to_nat ((hits_seen key st / ROTATION_EVERY) mod Z.of_nat (length entry))
      = Some text ∧
    Py.str_truthy text = true ∧
    _get_tactic key st = (Return (Some text), exec (count_hit key) st).
Proof.
  intros Hk. destruct (TACTICS_three_variants _ _ Hk) as (a & b & c & [= ->] & Ha & Hb & Hc).
  destruct (count_hit_run key st) as (Hrun & _).
  destruct (pick_variant_run [a; b; c] (hits_seen key st) (exec (count_hit key) st))
    as (text & Htext & Hpick); [done|].
  exists text. split; [done|]. split.
  - clear Hk Hrun Hpick. apply list_elem_of_lookup_2 in Htext.
    repeat (apply elem_of_cons in Htext as [->|Htext]; [assumption|]).
    by apply elem_of_nil in Htext.
  - unfold _get_tactic, mbind, M_bind. rewrite Hrun, Hk. done.
Qed.

(** A call on a key that is not in the catalogue. *)
Lemma get_tactic_miss key st :
  TACTICS !! key = None →
  _get_tactic key st = (Return None, exec (count_hit key) st).
Proof.
  intros Hk. destruct (count_hit_run key st) as (Hrun & _).
  unfold _get_tactic, mbind, M_bind. rewrite Hrun, Hk. done.
Qed.

(** Every call returns: a truthy text, or [None] on a miss. *)
Lemma get_tactic_total key st :
  ∃ result,
    _get_tactic key st = (Return result, exec (count_hit key) st) ∧
    (TACTICS !! key = None ∧ result = None ∨
     is_Some (TACTICS !! key) ∧ ∃ text, result = Some text ∧ Py.str_truthy text = true).
Proof.
  destruct (TACTICS !! key) as [e|] eqn:Hk.
  - destruct (TACTICS_three_variants _ _ Hk) as (a & b & c & -> & _).
    destruct (get_tactic_hit _ _ st Hk) as (text & _ & Ht & Hrun).
    exists (Some text). split; [done|]. right. eauto.
  - exists None. split; [apply get_tactic_miss; exact Hk | left; split; reflexivity].
Qed.

Lemma exec_get_tactic key st : exec (_get_tactic key) st = exec (count_hit key) st.
Proof.
  destruct (get_tactic_total key st) as (r & Hrun & _).
  unfold exec at 1. by rewrite Hrun.
Qed.

Lemma eval_count_hit key st : eval (count_hit key) st = Return (hits_seen key st).
Proof.
  destruct (count_hit_run key st) as (Hrun & _). unfold eval. by rewrite Hrun.
Qed.

Lemma sequence_cons {A} (m : M A) ms a st st' :
  m st = (Return a, st') →
  sequence (m :: ms) st =
    match sequence ms st' with
    | (Return others, st'') => (Return (a :: others), st'')
    | (Raise e, st'') => (Raise e, st'')
    end.
Proof.
  intros Hm. simpl. unfold mbind, M_bind at 1. rewrite Hm.
  unfold mbind, M_bind, mret, M_ret. by destruct (sequence ms st') as [[]].
Qed.

(** One call on a three-variant key, in terms of the counter it reads. *)
Lemma get_tactic_three key v0 v1 v2 st :
  TACTICS !! key = Some (Variants [v0; v1; v2]) →
  _get_tactic key st =
    (Return ([v0; v1; v2] !! Z.to_nat ((hits_seen key st / ROTATION_EVERY) mod 3)),
     exec (count_hit key) st).
Proof.
  intros Hk. destruct (get_tactic_hit _ _ st Hk) as (text & Htext & _ & Hrun).
  rewrite Hrun. change (Z.of_nat (length [v0; v1; v2])) with 3 in Htext.
  by rewrite Htext.
Qed.

(** C5: twelve consecutive calls on a key with three variants, starting from
    a zero counter, return the variants 0,0,0,0,1,1,1,1,2,2,2,2; and each
    call on a key of the catalogue reads the counter h, returns the variant
    at index (h // 4) mod len(entry) and leaves the counter at h + 1. *)
Theorem rotation_every_four :
  (∀ key v0 v1 v2 st,
     TACTICS !! key = Some (Variants [v0; v1; v2]) →
     hits_seen key st = 0 →
     eval (sequence (replicate 12 (_get_tactic key))) st =
       Return (Some <$> [v0; v0; v0; v0; v1; v1; v1; v1; v2; v2; v2; v2])) ∧
  (∀ key entry st,
     TACTICS !! key = Some (Variants entry) →
     let h := hits_seen key st in
     eval (count_hit key) st = Return h ∧
     (∃ text,
        entry !! Z.to_nat ((h / ROTATION_EVERY) mod Z.of_nat (length entry))
          = Some text ∧
        eval (_get_tactic key) st = Return (Some text)) ∧
     hits_seen key (exec (_get_tactic key) st) = h + 1).
Proof.
  split.
  - intros key v0 v1 v2 st Hk Hzero. unfold eval.
    assert (∀ n st', hits_seen key st' = n →
              _get_tactic key st' =
                (Return ([v0; v1; v2] !! Z.to_nat ((n / ROTATION_EVERY) mod 3)),
                 exec (count_hit key) st') ∧
              hits_seen key (exec (count_hit key) st') = n + 1) as Hstep.
    { intros n st' <-. split; [by apply get_tactic_three | apply hits_seen_after]. }
    simpl replicate.
    repeat match goal with
           | H : hits_seen key ?s = _ |- context [sequence (_ :: _) ?s] =>
               let Hrun := fresh "Hrun" in
               let Hnext := fresh "Hnext" in
               destruct (Hstep _ _ H) as [Hrun Hnext];
               rewrite (sequence_cons _ _ _ _ _ Hrun);
               clear H Hrun; simpl in Hnext
           end.
    reflexivity.
  - intros key entry st Hk h. split_and!.
    + apply eval_count_hit.
    + destruct (get_tactic_hit _ _ st Hk) as (text & Htext & _ & Hrun).
      exists text. split; [done|]. unfold eval. by rewrite Hrun.
    + rewrite exec_get_tactic. apply hits_seen_after.
Qed.

(** Switching key drops the counter of the previous (truthy) key. *)
Lemma count_hit_forgets old key st :
  last_key st = Some old → old ≠ key → key_truthy old = true →
  key_hit_counts (exec (count_hit key) st) !! old = None.
Proof.
  intros Hlast Hne Htruthy. unfold exec, count_hit. simpl.
  rewrite Hlast, Htruthy.
  case_decide as Hd; [|congruence].
  rewrite lookup_insert_ne by done. apply lookup_delete_eq.
Qed.

Lemma initial_single_counter : single_counter initial_engine.
Proof. intros k [v Hv]. simpl in Hv. by rewrite lookup_empty in Hv. Qed.

Lemma count_hit_single_counter key st :
  key_truthy key = true → single_counter st →
  single_counter (exec (count_hit key) st).
Proof.
  intros Htruthy Hinv k [v Hv].
  destruct (count_hit_run key st) as (_ & Hlast & _ & _).
  destruct (decide (k = key)) as [->|Hne]; [done|]. exfalso.
  revert Hv. unfold exec, count_hit. simpl.
  rewrite lookup_insert_ne by done.
  case_decide as Hd.
  - destruct (last_key st) as [old|] eqn:Hold.
    + destruct (key_truthy old) eqn:Hot.
      * intros Hv. destruct (decide (k = old)) as [->|Hko].
        -- by rewrite lookup_delete_eq in Hv.
        -- rewrite lookup_delete_ne in Hv by done.
           destruct (Hinv k) as [Hk _]; [by eexists|]. congruence.
      * intros Hv. destruct (Hinv k) as [Hk Hkt]; [by eexists|]. congruence.
    + intros Hv. destruct (Hinv k) as [Hk _]; [by eexists|]. congruence.
  - intros Hv. destruct (Hinv k) as [Hk _]; [by eexists|]. congruence.
Qed.

Lemma single_counter_size st :
  single_counter st → (size (key_hit_counts st) ≤ 1)%nat.
Proof.
  intros Hinv. rewrite <- size_dom.
  destruct (last_key st) as [k|] eqn:Hlast.
  - rewrite <- (size_singleton (C := gset Key) k). apply subseteq_size.
    intros k' Hk'%elem_of_dom. destruct (Hinv k' Hk') as [Hk _].
    apply elem_of_singleton. congruence.
  - replace (dom (key_hit_counts st)) with (∅ : gset Key);
      [rewrite size_empty; lia|].
    symmetry. apply elem_of_equiv_empty_L. intros k' Hk'%elem_of_dom.
    destruct (Hinv k' Hk') as [Hk _]. congruence.
Qed.

(** A run of calls never raises; its effect on the state is that of the
    counter updates alone. *)
Lemma sequence_get_tactic_run keys : ∀ st,
  ∃ results,
    sequence (_get_tactic <$> keys) st =
      (Return results, foldl (λ s k, exec (count_hit k) s) st keys).
Proof.
  induction keys as [|k keys IH]; intros st.
  - by exists [].
  - destruct (get_tactic_total k st) as (r & Hrun & _).
    destruct (IH (exec (count_hit k) st)) as (rs & Hrs).
    exists (r :: rs). rewrite fmap_cons.
    rewrite (sequence_cons _ _ _ _ _ Hrun), Hrs. done.
Qed.

Lemma exec_sequence_get_tactic keys st :
  exec (sequence (_get_tactic <$> keys)) st =
    foldl (λ s k, exec (count_hit k) s) st keys.
Proof.
  destruct (sequence_get_tactic_run keys st) as (rs & Hrun).
  unfold exec at 1. by rewrite Hrun.
Qed.

Lemma calls_single_counter keys : ∀ st,
  Forall (λ k, key_truthy k = true) keys → single_counter st →
  single_counter (foldl (λ s k, exec (count_hit k) s) st keys).
Proof.
  induction keys as [|k keys IH]; intros st Hkeys Hinv; [done|].
  apply Forall_cons in Hkeys as [Hk Hkeys]. simpl.
  apply IH; [done|]. by apply count_hit_single_counter.
Qed.

(** C6: two calls on K1 raise its counter by 2; after one more call, on
    another key K2, the counter of K1 is gone, so the next call on K1 reads
    the counter 0, returns variant 0 and leaves the counter at 1; and
    in every state reached from the initial one by calls on (truthy) keys
    the hit map holds at most one counter, that of the last key. *)
Theorem key_switch_resets_counter :
  (∀ K1 K2 st,
     K1 ≠ K2 → key_truthy K1 = true →
     let st2 := exec (sequence (_get_tactic <$> [K1; K1])) st in
     let st3 := exec (sequence (_get_tactic <$> [K1; K1; K2])) st in
     hits_seen K1 st2 = hits_seen K1 st + 2 ∧
     key_hit_counts st3 !! K1 = None ∧
     eval (count_hit K1) st3 = Return 0 ∧
     eval (_get_tactic K1) st3 = Return (first_variant K1) ∧
     hits_seen K1 (exec (_get_tactic K1) st3) = 1) ∧
  (∀ keys,
     Forall (λ k, key_truthy k = true) keys →
     let st := exec (sequence (_get_tactic <$> keys)) initial_engine in
     single_counter st ∧ (size (key_hit_counts st) ≤ 1)%nat).
Proof.
  split.
  - intros K1 K2 st Hne Htruthy st2 st3.
    assert (hits_seen K1 st2 = hits_seen K1 st + 2) as Htwo.
    { unfold st2. rewrite exec_sequence_get_tactic. cbn [foldl].
      rewrite !hits_seen_after. lia. }
    assert (key_hit_counts st3 !! K1 = None) as Hnone.
    { unfold st3. rewrite exec_sequence_get_tactic. cbn [foldl].
      apply count_hit_forgets; [|done..].
      by destruct (count_hit_run K1 (exec (count_hit K1) st)) as (_ & Hl & _). }
    assert (hits_seen K1 st3 = 0) as Hzero by (unfold hits_seen; by rewrite Hnone).
    split_and!; [done | done | | |].
    + by rewrite eval_count_hit, Hzero.
    + unfold eval, first_variant.
      destruct (TACTICS !! K1) as [e|] eqn:Hk.
      * destruct (TACTICS_three_variants _ _ Hk) as (a & b & c & He & _).
        rewrite He in Hk |- *.
        rewrite (get_tactic_three _ _ _ _ _ Hk), Hzero. reflexivity.
      * rewrite (get_tactic_miss _ _ Hk). reflexivity.
    + rewrite exec_get_tactic, hits_seen_after, Hzero. reflexivity.
  - intros keys Hkeys st.
    assert (single_counter st) as Hinv.
    { unfold st. rewrite exec_sequence_get_tactic.
      apply calls_single_counter; [done | apply initial_single_counter]. }
    split; [done | by apply single_counter_size].
Qed.

(** ** The selection cascade (reasoning.py, _psychology_fallback) *)

Lemma bind_run {A B} (m : M A) (f : A → M B) st a st' :
  m st = (Return a, st') → (m ≫= f) st = f a st'.
Proof. intros Hm. unfold mbind, M_bind. by rewrite Hm. Qed.

Lemma crisis_in_catalogue tag :
  tag ∈ crisis_tags → is_Some (TACTICS !! TagKey tag).
Proof.
  intros Hin. unfold crisis_tags in Hin.
  repeat (apply elem_of_cons in Hin as [->|Hin];
          [vm_compute; eexists; reflexivity|]).
  by apply elem_of_nil in Hin.
Qed.

Lemma get_tactic_crisis tag : tag ∈ crisis_tags → returns_text (_get_tactic (TagKey tag)).
Proof.
  intros Hin%crisis_in_catalogue st.
  destruct (get_tactic_total (TagKey tag) st) as (r & Hrun & [[Hnone _]|[_ Hsome]]).
  - destruct Hin as [e He]. rewrite Hnone in He. discriminate He.
  - destruct Hsome as (text & -> & Ht). exists text. eexists.
    split; [exact Hrun | by apply str_truthy_nonempty].
Qed.

Lemma truthy_text result :
  truthy result = true → ∃ text, result = Some text ∧ text ≠ "".
Proof.
  destruct result as [text|]; [|discriminate].
  intros Ht. exists text. split; [done | by apply str_truthy_nonempty].
Qed.

(** A lookup followed by [if result: return result], then [rest]. *)
Lemma lookup_or_else key (rest : M (option string)) :
  returns_text rest →
  returns_text (result ← _get_tactic key; if truthy result then mret result else rest).
Proof.
  intros Hrest st.
  destruct (get_tactic_total key st) as (r & Hrun & _).
  rewrite (bind_run _ _ _ _ _ Hrun).
  destruct (truthy r) eqn:Ht.
  - destruct (truthy_text _ Ht) as (text & -> & Hne).
    exists text, (exec (count_hit key) st). split; [reflexivity | exact Hne].
  - apply Hrest.
Qed.

Lemma rotating_default_returns : returns_text rotating_default.
Proof.
  intros st. unfold rotating_default.
  pose proof (Z.mod_pos_bound (default_idx st) (Z.of_nat (length _default_pool)))
    as Hbound.
  destruct (lookup_lt_is_Some_2 _default_pool
              (Z.to_nat (default_idx st mod Z.of_nat (length _default_pool))))
    as [text Htext].
  { change (length _default_pool) with 8%nat in *. lia. }
  rewrite Htext. eexists _, _. split; [reflexivity|].
  apply str_truthy_nonempty.
  apply list_elem_of_lookup_2, list_elem_of_In in Htext.
  exact (proj1 (forallb_forall _ _) default_pool_ok _ Htext).
Qed.

Lemma first_match_run keys : ∀ st,
  ∃ result st', first_match keys st = (Return result, st') ∧
                (result = None ∨ truthy result = true).
Proof.
  induction keys as [|k keys IH]; intros st.
  - exists None, st. by split; [|left].
  - destruct (get_tactic_total k st) as (r & Hrun & _).
    simpl. rewrite (bind_run _ _ _ _ _ Hrun).
    destruct (truthy r) eqn:Ht; [|apply IH].
    exists r, (exec (count_hit k) st). by split; [|right].
Qed.

Lemma lookup_stage_returns emotion attention s_zone e_zone stress engagement :
  returns_text (lookup_stage emotion attention s_zone e_zone stress engagement).
Proof.
  unfold lookup_stage. apply lookup_or_else. intros st.
  match goal with
  | |- context [first_match ?ks] =>
      destruct (first_match_run ks st) as (r & st' & Hrun & Hr)
  end.
  rewrite (bind_run _ _ _ _ _ Hrun).
  destruct (truthy r) eqn:Ht.
  - destruct (truthy_text _ Ht) as (text & -> & Hne).
    exists text, st'. split; [reflexivity | exact Hne].
  - case_match.
    + exists flow_state_text, st'. split; [done|].
      apply str_truthy_nonempty. vm_compute. reflexivity.
    + apply rotating_default_returns.
Qed.

Lemma override_stage_returns emotion attention s_zone e_zone stress engagement :
  returns_text (override_stage emotion attention s_zone e_zone stress engagement).
Proof.
  unfold override_stage. repeat case_match.
  - apply lookup_or_else, get_tactic_crisis. repeat constructor.
  - apply lookup_or_else, get_tactic_crisis. repeat constructor.
  - apply get_tactic_crisis. repeat constructor.
  - apply lookup_stage_returns.
Qed.

Lemma alert_tag_crisis alerts key :
  alert_tag alerts = Some key → ∃ tag, key = TagKey tag ∧ tag ∈ crisis_tags.
Proof.
  unfold alert_tag, crisis_tags. repeat case_match; intros [= <-];
    eexists; (split; [reflexivity | repeat constructor]).
Qed.

Lemma index_from_end_is_Some {A} n (l : list A) :
  (0 < n ≤ length l)%nat → is_Some (Py.index_from_end n l).
Proof.
  intros Hn. unfold Py.index_from_end. case_decide; [|lia].
  apply lookup_lt_is_Some_2. lia.
Qed.

Lemma trend_tag_crisis history emotion stress engagement :
  trend_tag history emotion stress engagement = Return None ∨
  ∃ tag, trend_tag history emotion stress engagement = Return (Some (TagKey tag)) ∧
         tag ∈ crisis_tags.
Proof.
  unfold trend_tag, crisis_tags. case_decide as Hlen; [|by left].
  destruct (index_from_end_is_Some 3 history) as [h ->]; [lia|].
  repeat case_match; (by left) || (right; eexists; split; [reflexivity | repeat constructor]).
Qed.

(** C1: from every state and for every snapshot, history and alert list,
    [_psychology_fallback] returns (it does not raise) a non-empty text: a
    lookup that misses the catalogue falls through to the next stage. *)
Theorem select_returns_text current history alerts st :
  ∃ text st',
    _psychology_fallback current history alerts st = (Return (Some text), st') ∧
    text ≠ "".
Proof.
  unfold _psychology_fallback.
  destruct (alert_tag alerts) as [key|] eqn:Halert.
  - destruct (alert_tag_crisis _ _ Halert) as (tag & -> & Hin).
    by apply get_tactic_crisis.
  - match goal with
    | |- context [trend_tag ?h ?e ?s ?g] =>
        destruct (trend_tag_crisis h e s g) as [->|(tag & -> & Hin)]
    end.
    + apply override_stage_returns.
    + by apply get_tactic_crisis.
Qed.

(** ** Alert dispatch (reasoning.py, lines 410-419) *)








(** The tests are on substrings of the text: a text that matches none of the
    keywords leaves the alert stage without a tag. *)
Lemma alert_tag_unmatched : alert_tag ["Posture changed"] = None.
Proof. vm_compute. reflexivity. Qed.


(** ** Hard overrides (reasoning.py, lines 433-450) *)

Lemma trend_tag_short history emotion stress engagement :
  (length history < 3)%nat →
  trend_tag history emotion stress engagement = Return None.
Proof. intros Hlen. unfold trend_tag. case_decide; [lia | done]. Qed.

Lemma last_key_get_tactic key st : last_key (exec (_get_tactic key) st) = Some key.
Proof.
  rewrite exec_get_tactic. by destruct (count_hit_run key st) as (_ & Hl & _).
Qed.

(** The attention override: the state key is looked up; a miss falls back to
    the attention tag. *)
Lemma attention_override emotion s_zone e_zone stress engagement st :
  let key := StateKey emotion "low" s_zone e_zone in
  override_stage emotion "low" s_zone e_zone stress engagement st =
    if decide (is_Some (TACTICS !! key)) then _get_tactic key st
    else _get_tactic (TagKey "__attention_lost__") (exec (_get_tactic key) st).
Proof.
  intros key. unfold override_stage. rewrite decide_True by done. fold key.
  destruct (get_tactic_total key st) as (r & Hrun & Hr).
  rewrite (bind_run _ _ _ _ _ Hrun), exec_get_tactic.
  destruct Hr as [[Hnone ->]|[Hsome (text & -> & Ht)]].
  - rewrite decide_False; [done|]. rewrite Hnone. by intros [].
  - rewrite decide_True by exact Hsome. simpl. rewrite Ht, Hrun. reflexivity.
Qed.

(** C8: with emotion fearful, attention low, stress 85, engagement 20, fewer
    than 3 history entries and no alerts, the call is answered by the lookup
    of the key (fearful, low, high, low), an entry of the catalogue; and for
    any snapshot with attention low on that path the last lookup is that of
    the state key (emotion, low, stress zone, engagement zone) or, on a miss,
    of the attention tag, never of the stress tag. *)
Theorem attention_override_first :
  (∀ current history st,
     emotion current = Some "fearful" →
     attention current = Some "low" →
     stress_score current = Some 85%float →
     engagement_score current = Some 20%float →
     (length history < 3)%nat →
     let key := StateKey "fearful" "low" "high" "low" in
     is_Some (TACTICS !! key) ∧
     _psychology_fallback current history [] st = _get_tactic key st ∧
     last_key (exec (_psychology_fallback current history []) st) = Some key) ∧
  (∀ current history st,
     attention current = Some "low" →
     (length history < 3)%nat →
     let key := StateKey (emotion_of current) "low"
                  (_zone (default 20%float (stress_score current)))
                  (_zone (default 50%float (engagement_score current))) in
     last_key (exec (_psychology_fallback current history []) st) =
       Some (if decide (is_Some (TACTICS !! key)) then key
             else TagKey "__attention_lost__")).
Proof.
  assert (∀ current history st,
    attention current = Some "low" → (length history < 3)%nat →
    _psychology_fallback current history [] st =
      override_stage (emotion_of current) "low"
        (_zone (default 20%float (stress_score current)))
        (_zone (default 50%float (engagement_score current)))
        (default 20%float (stress_score current))
        (default 50%float (engagement_score current)) st) as Hpath.
  { intros current history st Hatt Hlen. unfold _psychology_fallback.
    rewrite Hatt. cbn [alert_tag list_truthy default].
    by rewrite trend_tag_short. }
  split.
  - intros current history st Hemo Hatt Hstress Heng Hlen key.
    assert (is_Some (TACTICS !! key)) as Hin.
    { vm_compute. eexists. reflexivity. }
    assert (_psychology_fallback current history [] st = _get_tactic key st) as Hsel.
    { rewrite Hpath by done. unfold emotion_of. rewrite Hemo, Hstress, Heng.
      cbn [default].
      change (_zone 85) with "high". change (_zone 20) with "low".
      rewrite attention_override. fold key. rewrite decide_True by exact Hin.
      reflexivity. }
    split; [exact Hin|]. split; [exact Hsel|].
    unfold exec. rewrite Hsel. apply last_key_get_tactic.
  - intros current history st Hatt Hlen key.
    unfold exec. rewrite Hpath by done. rewrite attention_override. fold key.
    case_decide.
    + apply last_key_get_tactic.
    + apply last_key_get_tactic.
Qed.

(** ** A miss followed by the crisis fallback (lines 433-447) *)

Lemma stress_override emotion attention s_zone e_zone stress engagement st :
  attention ≠ "low" → (65 <? stress)%float = true →
  let key := StateKey emotion attention "high" e_zone in
  override_stage emotion attention s_zone e_zone stress engagement st =
    if decide (is_Some (TACTICS !! key)) then _get_tactic key st
    else _get_tactic (TagKey "__stress_spike__") (exec (_get_tactic key) st).
Proof.
  intros Hatt Hstress key. unfold override_stage.
  rewrite decide_False by done. rewrite Hstress. fold key.
  destruct (get_tactic_total key st) as (r & Hrun & Hr).
  rewrite (bind_run _ _ _ _ _ Hrun), exec_get_tactic.
  destruct Hr as [[Hnone ->]|[Hsome (text & -> & Ht)]].
  - rewrite decide_False; [done|]. rewrite Hnone. by intros [].
  - rewrite decide_True by exact Hsome. simpl. rewrite Ht, Hrun. reflexivity.
Qed.

(** On a miss of the override's state key the call is the lookup of the
    state key followed by the lookup of the crisis tag. *)
Lemma miss_then_crisis current history alerts key tag st :
  reaches_overrides current history alerts →
  override_lookup current = Some (key, tag) →
  TACTICS !! key = None →
  _psychology_fallback current history alerts st =
    _get_tactic (TagKey tag) (exec (_get_tactic key) st) ∧
  tag ∈ crisis_tags ∧ key_truthy key = true ∧ key ≠ TagKey tag.
Proof.
  intros [Halert Htrend] Hlookup Hmiss.
  unfold _psychology_fallback. rewrite Halert, Htrend.
  unfold override_lookup in Hlookup.
  assert (¬ is_Some (TACTICS !! key)) as Hno.
  { rewrite Hmiss. by intros []. }
  clear Hmiss. case_decide as Hatt.
  - injection Hlookup as <- <-. rewrite Hatt, attention_override.
    rewrite decide_False by exact Hno.
    split; [reflexivity|]. split; [repeat constructor | split; [reflexivity | discriminate]].
  - destruct (65 <? _)%float eqn:Hstress; [|discriminate Hlookup].
    injection Hlookup as <- <-. rewrite stress_override by assumption.
    rewrite decide_False by exact Hno.
    split; [reflexivity|]. split; [repeat constructor | split; [reflexivity | discriminate]].
Qed.

Lemma first_variant_crisis tag st :
  tag ∈ crisis_tags → hits_seen (TagKey tag) st = 0 →
  eval (_get_tactic (TagKey tag)) st = Return (first_variant (TagKey tag)) ∧
  is_Some (first_variant (TagKey tag)).
Proof.
  intros [e He]%crisis_in_catalogue Hzero.
  destruct (TACTICS_three_variants _ _ He) as (a & b & c & -> & _).
  unfold eval, first_variant.
  rewrite (get_tactic_three _ _ _ _ _ He), He, Hzero. split; [reflexivity | by eexists].
Qed.

Lemma miss_call current history alerts key tag st :
  reaches_overrides current history alerts →
  override_lookup current = Some (key, tag) →
  TACTICS !! key = None →
  single_counter st →
  eval (count_hit (TagKey tag)) (exec (_get_tactic key) st) = Return 0 ∧
  eval (_psychology_fallback current history alerts) st =
    Return (first_variant (TagKey tag)) ∧
  is_Some (first_variant (TagKey tag)) ∧
  hits_seen (TagKey tag) (exec (_psychology_fallback current history alerts) st) = 1 ∧
  single_counter (exec (_psychology_fallback current history alerts) st).
Proof.
  intros Hreach Hlookup Hmiss Hinv.
  destruct (miss_then_crisis _ _ _ _ _ st Hreach Hlookup Hmiss)
    as (Hsel & Hcrisis & Htruthy & Hne).
  clear Hmiss.
  assert (single_counter (exec (_get_tactic key) st)) as Hinv1.
  { rewrite exec_get_tactic. by apply count_hit_single_counter. }
  assert (hits_seen (TagKey tag) (exec (_get_tactic key) st) = 0) as Hzero.
  { unfold hits_seen.
    destruct (key_hit_counts (exec (_get_tactic key) st) !! TagKey tag) eqn:Hc;
      [|reflexivity].
    destruct (Hinv1 (TagKey tag)) as [Hlast _]; [by eexists|].
    rewrite last_key_get_tactic in Hlast. congruence. }
  destruct (first_variant_crisis tag _ Hcrisis Hzero) as [Hfirst Hsome].
  assert (tag ≠ "") as Htag.
  { clear -Hcrisis. intros ->. unfold crisis_tags in Hcrisis.
    repeat (apply elem_of_cons in Hcrisis as [Hcrisis|Hcrisis]; [discriminate|]).
    by apply elem_of_nil in Hcrisis. }
  split; [by rewrite eval_count_hit, Hzero|].
  split; [unfold eval; rewrite Hsel; exact Hfirst|].
  split; [exact Hsome|].
  assert (exec (_psychology_fallback current history alerts) st =
          exec (count_hit (TagKey tag)) (exec (_get_tactic key) st)) as ->.
  { unfold exec at 1. rewrite Hsel. apply exec_get_tactic. }
  split.
  - by rewrite hits_seen_after, Hzero.
  - apply count_hit_single_counter; [|exact Hinv1].
    clear -Htag. simpl. unfold Py.str_truthy.
    destruct tag; [by destruct Htag | reflexivity].
Qed.

(** C10: a lookup of a key that is not in the catalogue returns no tactic and
    still makes the key the last key, counts the hit and drops the counter of
    the previous key; so a call that misses the state key of a hard override
    and falls back to the crisis tag makes two lookups, the crisis lookup
    reads the counter 0 and returns variant 0, and any number of repeated
    such calls return variant 0 every time. *)
Theorem miss_path_never_rotates :
  (∀ key st,
     TACTICS !! key = None →
     eval (_get_tactic key) st = Return None ∧
     last_key (exec (_get_tactic key) st) = Some key ∧
     key_hit_counts (exec (_get_tactic key) st) !! key
       = Some (hits_seen key st + 1) ∧
     (∀ old, last_key st = Some old → old ≠ key → key_truthy old = true →
             key_hit_counts (exec (_get_tactic key) st) !! old = None)) ∧
  (∀ current history alerts key tag st,
     reaches_overrides current history alerts →
     override_lookup current = Some (key, tag) →
     TACTICS !! key = None →
     single_counter st →
     eval (count_hit (TagKey tag)) (exec (_get_tactic key) st) = Return 0 ∧
     is_Some (first_variant (TagKey tag)) ∧
     (∀ n, eval (sequence (replicate n
                    (_psychology_fallback current history alerts))) st
           = Return (replicate n (first_variant (TagKey tag))))).
Proof.
  split.
  - intros key st Hmiss.
    split; [unfold eval; by rewrite get_tactic_miss|]. clear Hmiss.
    rewrite exec_get_tactic.
    destruct (count_hit_run key st) as (_ & Hlast & _ & Hcount).
    split; [exact Hlast|]. split; [exact Hcount|].
    intros old Hold Hne Htruthy. by apply count_hit_forgets.
  - intros current history alerts key tag st Hreach Hlookup Hmiss Hinv.
    destruct (miss_call _ _ _ _ _ st Hreach Hlookup Hmiss Hinv)
      as (Hread & _ & Hsome & _).
    split; [exact Hread|]. split; [exact Hsome|].
    intros n. revert st Hinv Hread. induction n as [|n IH]; intros st Hinv _.
    + reflexivity.
    + destruct (miss_call _ _ _ _ _ st Hreach Hlookup Hmiss Hinv)
        as (_ & Heval & _ & _ & Hinv').
      remember (first_variant (TagKey tag)) as first eqn:Hfirst.
      clear Hsome Hfirst.
      destruct (select_returns_text current history alerts st)
        as (text & st' & Hrun & _).
      unfold eval in Heval. rewrite Hrun in Heval. simpl in Heval.
      injection Heval as Heval.
      unfold exec in Hinv'. rewrite Hrun in Hinv'. simpl in Hinv'.
      destruct (miss_call _ _ _ _ _ st' Hreach Hlookup Hmiss Hinv')
        as (Hread' & _).
      specialize (IH st' Hinv' Hread').
      unfold eval in IH |- *. simpl replicate.
      rewrite (sequence_cons _ _ _ _ _ Hrun).
      destruct (sequence _ st') as [[rs|e] st'']; simpl in IH |- *;
        [|discriminate IH].
      injection IH as ->. by rewrite Heval.
Qed.

(** ** The history handed to the advice (main.py, lines 174-187) *)







(** ** Instances on sample data *)

Lemma detect_alerts_as_documented_witness :
  detect_alerts sixth [sample "neutral" "high" 80 10] = Return [] ∧
  detect_alerts (sample "neutral" "low" 50 80) (take 3 full_window) =
    Return (Spec.alert_text <$>
              Spec.detect 50 80 "low" [80; 78; 76]%float [10; 10; 10]%float) ∧
  NoDup [engagement_dropping_text; stress_spiking_text; high_stress_text;
         attention_lost_text].
Proof.
  destruct detect_alerts_as_documented as (Hfew & Hcomplete & Htexts).
  split; [apply Hfew; simpl; lia|].
  split; [apply Hcomplete; reflexivity|].
  apply (Htexts (sample "neutral" "low" 50 80) (take 3 full_window)).
  vm_compute. reflexivity.
Defined.

Lemma rotation_every_four_witness :
  ∃ v0 v1 v2,
    TACTICS !! TagKey "__stress_spike__" = Some (Variants [v0; v1; v2]) ∧
    hits_seen (TagKey "__stress_spike__") initial_engine = 0 ∧
    eval (sequence (replicate 12 (_get_tactic (TagKey "__stress_spike__"))))
      initial_engine =
      Return (Some <$> [v0; v0; v0; v0; v1; v1; v1; v1; v2; v2; v2; v2]) ∧
    hits_seen (TagKey "__stress_spike__")
      (exec (_get_tactic (TagKey "__stress_spike__")) initial_engine) = 0 + 1.
Proof.
  eexists _, _, _.
  split; [vm_compute; reflexivity|]. split; [reflexivity|]. split.
  - apply (proj1 rotation_every_four); [vm_compute; reflexivity | reflexivity].
  - eapply (proj2 rotation_every_four). vm_compute. reflexivity.
Defined.

Lemma key_switch_resets_counter_witness :
  let K1 := TagKey "__stress_spike__" in
  let K2 := TagKey "__attention_lost__" in
  K1 ≠ K2 ∧ key_truthy K1 = true ∧
  eval (count_hit K1) (exec (sequence (_get_tactic <$> [K1; K1; K2])) initial_engine)
    = Return 0 ∧
  (size (key_hit_counts
           (exec (sequence (_get_tactic <$> [K1; K1; K2; K1])) initial_engine)) ≤ 1)%nat.
Proof.
  intros K1 K2.
  assert (K1 ≠ K2) as Hne by discriminate.
  assert (key_truthy K1 = true) as Htruthy by reflexivity.
  split; [exact Hne|]. split; [exact Htruthy|]. split.
  - apply (proj1 key_switch_resets_counter K1 K2 initial_engine Hne Htruthy).
  - apply (proj2 key_switch_resets_counter [K1; K1; K2; K1]).
    repeat constructor.
Defined.


Lemma attention_override_first_witness :
  let current := sample "fearful" "low" 20 85 in
  let history := take 2 full_window in
  let key := StateKey "fearful" "low" "high" "low" in
  (length history < 3)%nat ∧
  _psychology_fallback current history [] initial_engine =
    _get_tactic key initial_engine ∧
  last_key (exec (_psychology_fallback (sample "happy" "low" 50 85) history [])
              initial_engine) = Some (TagKey "__attention_lost__").
Proof.
  intros current history key.
  assert (length history < 3)%nat as Hlen by (simpl; lia).
  split; [exact Hlen|]. split.
  - apply (proj1 attention_override_first current history initial_engine);
      [reflexivity.. | exact Hlen].
  - rewrite (proj2 attention_override_first (sample "happy" "low" 50 85) history
               initial_engine eq_refl Hlen).
    vm_compute. reflexivity.
Defined.


Lemma miss_path_never_rotates_witness :
  let current := sample "happy" "low" 50 10 in
  let key := StateKey "happy" "low" "low" "mid" in
  TACTICS !! key = None ∧
  override_lookup current = Some (key, "__attention_lost__") ∧
  last_key (exec (_get_tactic key) initial_engine) = Some key ∧
  eval (sequence (replicate 9 (_psychology_fallback current [] []))) initial_engine =
    Return (replicate 9 (first_variant (TagKey "__attention_lost__"))).
Proof.
  intros current key.
  assert (TACTICS !! key = None) as Hmiss by (vm_compute; reflexivity).
  assert (override_lookup current = Some (key, "__attention_lost__")) as Hlookup
    by (vm_compute; reflexivity).
  assert (reaches_overrides current [] []) as Hreach by (split; reflexivity).
  split; [exact Hmiss|]. split; [exact Hlookup|]. split.
  - apply (proj1 miss_path_never_rotates key initial_engine Hmiss).
  - apply (proj2 miss_path_never_rotates current [] [] key "__attention_lost__"
             initial_engine Hreach Hlookup Hmiss initial_single_counter).
Defined.
